(** * mavencentral-api: the query service of [main.py], embedded in Rocq

    [main.py] is a FastAPI application over one SQLite table, [gav].  Each
    route handler opens a connection, runs one or two statements of the
    catalogue in [DBMetadata], maps the rows to a pydantic model and closes
    the connection.

    The embedding follows the file top to bottom:
    - the pydantic models are records;
    - the values that cross the [sqlite3] boundary are [pyval]s and a result
      row is a Python tuple, [list pyval];
    - the handlers run in a small state-and-exception monad [M] over a
      [world] that holds the database file and the connections that are
      open; an exception leaves the world as it was when it was raised;
    - the five statements are functions of the table, written after the
      SQLite documentation ([LIMIT]/[OFFSET], [LIKE], [max], [GROUP BY]);
    - [os.path.splitext] follows [genericpath._splitext].

    Strings are Rocq strings, read as sequences of characters. *)

From Stdlib Require Import List String Ascii ZArith Bool Lia PeanoNat.
From Stdlib Require Import Sorting.Sorted Sorting.Permutation.
From Stdlib Require Import Structures.OrdersEx Classes.RelationClasses.
Import ListNotations.

Local Open Scope string_scope.
Local Open Scope Z_scope.

(* ================================================================== *)
(** * Models *)

Module ModelGAV.
Record t : Type := Build {
  group_id : string;
  artifact_id : string;
  artifact_version : string;
  file_name : string;
  major_version : Z;
  version_seq : Z;
  last_modified : string;
  size : Z;
  sha1 : string;
  signature_exists : Z;
  sources_exists : Z;
  javadoc_exists : Z;
  classifier : string;
  file_extension : string;
  packaging : string;
  name : string
}.
End ModelGAV.

Module ModelLastModified.
Record t : Type := Build { last_modified : string }.
End ModelLastModified.

Module ModelUpgrade.
Record t : Type := Build { artifact_version : string; last_modified : string }.
End ModelUpgrade.

(* ================================================================== *)
(** * Python values, exceptions *)

(** What [sqlite3] hands to Python for the columns of [gav] and takes as a
    bound parameter: [None] (SQL NULL), [int] (INTEGER), [str] (TEXT). *)
Inductive pyval : Type :=
| PyNone
| PyInt (z : Z)
| PyStr (s : string).

(** A row as [fetchone]/[fetchall] return it: a tuple. *)
Definition row : Type := list pyval.

Inductive exn : Type :=
| HTTPException (status_code : Z) (detail : string)
| RequestValidationError   (* FastAPI: a Path/Query constraint failed *)
| ValidationError          (* pydantic: a model field got a wrong value *)
| IndexError               (* tuple index out of range *)
| OverflowError            (* sqlite3: Python int too large for INTEGER *)
| OperationalError         (* sqlite3: the database cannot be opened *)
| ProgrammingError.        (* sqlite3: closed connection, wrong bindings *)

(** Pure computations that may raise. *)
Definition res (A : Type) : Type := (exn + A)%type.

Definition rbind {A B} (m : res A) (k : A -> res B) : res B :=
  match m with
  | inl e => inl e
  | inr a => k a
  end.

Notation "x <~ m ;; k" := (rbind m (fun x => k))
  (at level 61, m at next level, right associativity).

(* ================================================================== *)
(** * DBMetadata: constants *)

Definition MAXLEN_GROUP_ID : nat := 254.
Definition MAXLEN_ARTIFACT_ID : nat := 254.
Definition MAXLEN_ARTIFACT_VERSION : nat := 128.
Definition MAXLEN_FILE_NAME : nat := 512.

(** Maximum number of items to return in a single page *)
Definition PAGE_SIZE : Z := 100.
Definition PAGE_SIZE_BIG : Z := 1000.

(** The statements of the catalogue.  [SQL_SELECT_GAV] is the column list
    the four [SELECT ... FROM gav] statements share; it is [select_gav]
    below. *)
Inductive statement : Type :=
| PRAGMA (text : string)
| SQL_GAV_SELECT_ALL
| SQL_GAV_SELECT_FILE_NAME
| SQL_GAV_SELECT_FILE_LAST_MODIFIED
| SQL_GAV_SELECT_GAV
| SQL_GAV_UPGRADE.

Definition SQL_PERF_TUNE : list statement :=
  [ PRAGMA "PRAGMA query_only = 1;";
    PRAGMA "PRAGMA journal_mode = DELETE;";
    PRAGMA "PRAGMA synchronous = 0;";
    PRAGMA "PRAGMA cache_size = 100000;";
    PRAGMA "PRAGMA journal_size_limit = 33554432;";
    PRAGMA "PRAGMA mmap_size = 536870912;";
    PRAGMA "PRAGMA synchronous = normal;";
    PRAGMA "PRAGMA temp_store = MEMORY;" ].

(* ================================================================== *)
(** * The table and SQLite's operators *)

(** The schema of [gav] is not in the repository.  A stored row is taken
    with the sixteen columns [SQL_SELECT_GAV] names, typed as [ModelGAV]
    declares them (TEXT and INTEGER, none NULL); the list is in the order in
    which SQLite scans the table. *)
Definition table : Type := list ModelGAV.t.

(** The column list of [SQL_SELECT_GAV], in its order. *)
Definition select_gav (r : ModelGAV.t) : row :=
  [ PyStr (ModelGAV.group_id r); PyStr (ModelGAV.artifact_id r);
    PyStr (ModelGAV.artifact_version r);
    PyStr (ModelGAV.file_name r); PyInt (ModelGAV.major_version r);
    PyInt (ModelGAV.version_seq r); PyStr (ModelGAV.last_modified r);
    PyInt (ModelGAV.size r); PyStr (ModelGAV.sha1 r);
    PyInt (ModelGAV.signature_exists r); PyInt (ModelGAV.sources_exists r);
    PyInt (ModelGAV.javadoc_exists r);
    PyStr (ModelGAV.classifier r); PyStr (ModelGAV.file_extension r);
    PyStr (ModelGAV.packaging r); PyStr (ModelGAV.name r) ].

(** [LIMIT n]: a negative [n] means no upper bound. *)
Definition sqlite_limit {A} (n : Z) (rows : list A) : list A :=
  if n <? 0 then rows else firstn (Z.to_nat n) rows.

(** [OFFSET n]: a negative [n] counts as zero. *)
Definition sqlite_offset {A} (n : Z) (rows : list A) : list A :=
  if n <? 0 then rows else skipn (Z.to_nat n) rows.

(** A Python int is bound as a 64-bit INTEGER, or not at all. *)
Definition fits_int64 (z : Z) : bool :=
  (- 2 ^ 63 <=? z) && (z <? 2 ^ 63).

Definition bind_int (z : Z) : res Z :=
  if fits_int64 z then inr z else inl OverflowError.

(** ASCII case folding, the only one [LIKE] does. *)
Definition tolower (c : ascii) : ascii :=
  let n := nat_of_ascii c in
  if (Nat.leb 65 n && Nat.leb n 90)%bool then ascii_of_nat (n + 32) else c.

(** [s LIKE pattern] with SQLite's defaults: [%] stands for any run of
    characters, [_] for any one character, letters of the ASCII range match
    in either case, and there is no escape character. *)
Fixpoint sqlite_like (pattern s : string) : bool :=
  match pattern with
  | EmptyString =>
      match s with EmptyString => true | String _ _ => false end
  | String p pattern' =>
      if Ascii.eqb p "%" then
        (fix any_run (t : string) : bool :=
           sqlite_like pattern' t
           || match t with
              | EmptyString => false
              | String _ t' => any_run t'
              end) s
      else
        match s with
        | EmptyString => false
        | String c s' =>
            (Ascii.eqb p "_" || Ascii.eqb (tolower p) (tolower c))
            && sqlite_like pattern' s'
        end
  end.

(** TEXT values compare as [memcmp] does (BINARY collation). *)
Definition text_max (a b : string) : string :=
  if String.ltb a b then b else a.

(** The aggregate [max(last_modified)]: NULL over no row. *)
Definition sql_max (vals : list string) : pyval :=
  match vals with
  | [] => PyNone
  | v :: vs => PyStr (fold_left text_max vs v)
  end.

(* ================================================================== *)
(** * The catalogue, statement by statement *)

(** [SQL_GAV_SELECT_ALL]: [SQL_SELECT_GAV LIMIT ? OFFSET ?] *)
Definition select_all (limit offset : Z) (t : table) : list row :=
  sqlite_limit limit (sqlite_offset offset (map select_gav t)).

(** [SQL_GAV_SELECT_FILE_NAME]: [SQL_SELECT_GAV WHERE file_name = ? LIMIT 1] *)
Definition where_file_name (file_name : string) (r : ModelGAV.t) : bool :=
  String.eqb (ModelGAV.file_name r) file_name.

Definition select_file_name (file_name : string) (t : table) : list row :=
  sqlite_limit 1 (map select_gav (filter (where_file_name file_name) t)).

(** [SQL_GAV_SELECT_FILE_LAST_MODIFIED]:
    [SELECT max(last_modified) FROM gav WHERE file_name LIKE ? LIMIT 1].
    An aggregate without GROUP BY yields one row whatever [WHERE] keeps. *)
Definition where_file_name_like (pattern : string) (r : ModelGAV.t) : bool :=
  sqlite_like pattern (ModelGAV.file_name r).

Definition select_file_last_modified (pattern : string) (t : table)
  : list row :=
  sqlite_limit 1
    [ [ sql_max (map ModelGAV.last_modified
                     (filter (where_file_name_like pattern) t)) ] ].

(** [SQL_GAV_SELECT_GAV]: [SQL_SELECT_GAV WHERE group_id = ? AND
    artifact_id = ? AND artifact_version = ? LIMIT 100] *)
Definition where_gav (g a v : string) (r : ModelGAV.t) : bool :=
  String.eqb (ModelGAV.group_id r) g
  && String.eqb (ModelGAV.artifact_id r) a
  && String.eqb (ModelGAV.artifact_version r) v.

Definition select_gav_rows (g a v : string) (t : table) : list row :=
  sqlite_limit PAGE_SIZE (map select_gav (filter (where_gav g a v) t)).

(** [SQL_GAV_UPGRADE]:
    [SELECT distinct artifact_version, max(last_modified) AS last_modified
     from gav WHERE group_id = ? AND artifact_id = ? AND version_seq > ?
     GROUP BY artifact_version ORDER BY version_seq LIMIT ?] *)
Definition where_upgrade (g a : string) (n : Z) (r : ModelGAV.t) : bool :=
  String.eqb (ModelGAV.group_id r) g
  && String.eqb (ModelGAV.artifact_id r) a
  && (n <? ModelGAV.version_seq r).

(** With [max] as the only aggregate, the bare columns of a group (here
    [version_seq], which [ORDER BY] reads) are those of the row that holds
    the maximum.  A group is therefore kept as that row. *)
Definition newest (best r : ModelGAV.t) : ModelGAV.t :=
  if String.ltb (ModelGAV.last_modified best) (ModelGAV.last_modified r)
  then r else best.

Fixpoint aggregate (r : ModelGAV.t) (groups : list ModelGAV.t)
  : list ModelGAV.t :=
  match groups with
  | [] => [r]
  | best :: groups' =>
      if String.eqb (ModelGAV.artifact_version best)
                    (ModelGAV.artifact_version r)
      then newest best r :: groups'
      else best :: aggregate r groups'
  end.

Definition group_by_artifact_version (rows : list ModelGAV.t)
  : list ModelGAV.t :=
  fold_left (fun groups r => aggregate r groups) rows [].

(** [distinct] on the two output columns. *)
Definition same_output (a b : ModelGAV.t) : bool :=
  String.eqb (ModelGAV.artifact_version a) (ModelGAV.artifact_version b)
  && String.eqb (ModelGAV.last_modified a) (ModelGAV.last_modified b).

Fixpoint sql_distinct (rows : list ModelGAV.t) : list ModelGAV.t :=
  match rows with
  | [] => []
  | r :: rest =>
      r :: filter (fun x => negb (same_output r x)) (sql_distinct rest)
  end.

(** [ORDER BY version_seq], ascending.  Groups with the same
    [version_seq] come in the order [GROUP BY artifact_version] produced
    them, that is by [artifact_version]. *)
Definition comes_before (r x : ModelGAV.t) : bool :=
  (ModelGAV.version_seq r <? ModelGAV.version_seq x)
  || ((ModelGAV.version_seq r =? ModelGAV.version_seq x)
      && String.leb (ModelGAV.artifact_version r)
                    (ModelGAV.artifact_version x)).

Fixpoint insert_by_version_seq (r : ModelGAV.t) (sorted : list ModelGAV.t)
  : list ModelGAV.t :=
  match sorted with
  | [] => [r]
  | x :: xs =>
      if comes_before r x
      then r :: x :: xs
      else x :: insert_by_version_seq r xs
  end.

Definition order_by_version_seq (rows : list ModelGAV.t)
  : list ModelGAV.t :=
  fold_right insert_by_version_seq [] rows.

Definition upgrade_columns (r : ModelGAV.t) : row :=
  [ PyStr (ModelGAV.artifact_version r); PyStr (ModelGAV.last_modified r) ].

(** The groups the statement returns, each as the row that stands for it. *)
Definition newer_versions (g a : string) (n limit : Z) (t : table)
  : list ModelGAV.t :=
  sqlite_limit limit
    (order_by_version_seq
       (sql_distinct
          (group_by_artifact_version (filter (where_upgrade g a n) t)))).

Definition select_upgrade (g a : string) (n limit : Z) (t : table)
  : list row :=
  map upgrade_columns (newer_versions g a n limit t).

(** [cursor.execute(sql, params)] on the table: the parameters are bound by
    position.  The handlers bind a [str] where a TEXT column is compared and
    an [int] where a number is expected; any other binding is reported as
    [ProgrammingError]. *)
Definition run_statement (sql : statement) (params : list pyval)
  (t : table) : res (list row) :=
  match sql, params with
  | PRAGMA _, [] => inr []
  | SQL_GAV_SELECT_ALL, [PyInt limit; PyInt offset] =>
      limit <~ bind_int limit ;;
      offset <~ bind_int offset ;;
      inr (select_all limit offset t)
  | SQL_GAV_SELECT_FILE_NAME, [PyStr file_name] =>
      inr (select_file_name file_name t)
  | SQL_GAV_SELECT_FILE_LAST_MODIFIED, [PyStr pattern] =>
      inr (select_file_last_modified pattern t)
  | SQL_GAV_SELECT_GAV, [PyStr g; PyStr a; PyStr v] =>
      inr (select_gav_rows g a v t)
  | SQL_GAV_UPGRADE, [PyStr g; PyStr a; PyInt n; PyInt limit] =>
      n <~ bind_int n ;;
      limit <~ bind_int limit ;;
      inr (select_upgrade g a n limit t)
  | _, _ => inl ProgrammingError
  end.

(* ================================================================== *)
(** * The world and the handler monad *)

Definition connection : Type := nat.

(** The database file ([db_available]: it can be opened and tuned), its
    table, and the connections of this process that are open. *)
Record world : Type := World {
  db_available : bool;
  db_rows : table;
  next_connection : connection;
  open_connections : list connection
}.

Definition M (A : Type) : Type := world -> res A * world.

Definition ret {A} (a : A) : M A := fun w => (inr a, w).

Definition raise {A} (e : exn) : M A := fun w => (inl e, w).

Definition bind {A B} (m : M A) (k : A -> M B) : M B :=
  fun w =>
    match m w with
    | (inl e, w') => (inl e, w')
    | (inr a, w') => k a w'
    end.

Definition lift {A} (r : res A) : M A := fun w => (r, w).

Notation "x <- m ;; k" := (bind m (fun x => k))
  (at level 61, m at next level, right associativity).

Notation "m >> k" := (bind m (fun _ => k))
  (at level 61, right associativity).

(** [try: body except OperationalError: handler] *)
Definition try_except_OperationalError {A} (body handler : M A) : M A :=
  fun w =>
    match body w with
    | (inl OperationalError, w') => handler w'
    | outcome => outcome
    end.

Fixpoint for_each {A} (items : list A) (body : A -> M unit) : M unit :=
  match items with
  | [] => ret tt
  | x :: rest => body x >> for_each rest body
  end.

(* ================================================================== *)
(** * sqlite3: connections and cursors *)

(** A cursor is local to the handler that made it: it is passed along, with
    the rows of its last [execute] that were not fetched yet. *)
Record cursor : Type := Cursor {
  cursor_connection : connection;
  cursor_rows : list row
}.

Definition is_open (c : connection) (w : world) : bool :=
  existsb (Nat.eqb c) (open_connections w).

Definition sqlite3_connect : M connection :=
  fun w =>
    if db_available w then
      let c := next_connection w in
      (inr c, World (db_available w) (db_rows w) (S c)
                    (c :: open_connections w))
    else (inl OperationalError, w).

Definition connection_cursor (c : connection) : M cursor :=
  fun w =>
    if is_open c w then (inr (Cursor c []), w)
    else (inl ProgrammingError, w).

Definition cursor_execute (cur : cursor) (sql : statement)
  (params : list pyval) : M cursor :=
  fun w =>
    if is_open (cursor_connection cur) w then
      match run_statement sql params (db_rows w) with
      | inl e => (inl e, w)
      | inr rows => (inr (Cursor (cursor_connection cur) rows), w)
      end
    else (inl ProgrammingError, w).

Definition cursor_fetchone (cur : cursor) : option row * cursor :=
  match cursor_rows cur with
  | [] => (None, cur)
  | r :: rest => (Some r, Cursor (cursor_connection cur) rest)
  end.

Definition cursor_fetchall (cur : cursor) : list row * cursor :=
  (cursor_rows cur, Cursor (cursor_connection cur) []).

Definition cursor_close (cur : cursor) : M unit := ret tt.

Definition connection_close (c : connection) : M unit :=
  fun w =>
    (inr tt, World (db_available w) (db_rows w) (next_connection w)
                   (filter (fun c' => negb (Nat.eqb c c'))
                           (open_connections w))).

(** [not rows] for a list. *)
Definition not_rows (rows : list row) : bool :=
  match rows with
  | [] => true
  | _ :: _ => false
  end.

(** [if not row: ...] for what [fetchone] returns splits on this.  [None]
    and the empty tuple are false; any other tuple is true, whatever it
    holds, and is handed on. *)
Definition truthy (r : option row) : option row :=
  match r with
  | Some (v :: vs) => Some (v :: vs)
  | _ => None
  end.

(* ================================================================== *)
(** * DBMetadata: connect and gav2item *)

Definition connect : M connection :=
  try_except_OperationalError
    (conn <- sqlite3_connect ;;
     cur <- connection_cursor conn ;;
     for_each SQL_PERF_TUNE
       (fun sql => cur' <- cursor_execute cur sql [] ;; ret tt) >>
     cursor_close cur >>
     ret conn)
    (raise (HTTPException 503
       "Database is under maintenance and not available. try again after 2 hours.")).

(** [row[i]] *)
Definition index (r : row) (i : nat) : res pyval :=
  match nth_error r i with
  | Some v => inr v
  | None => inl IndexError
  end.

(** A pydantic field declared [str], one declared [int].  [None] is refused
    by both.  The statements of the catalogue hand a [str] for a TEXT column
    and an [int] for an INTEGER column; a [str] in the place of an [int]
    (which pydantic may convert when it spells a number) or an [int] in the
    place of a [str] is outside this model and counted as refused. *)
Definition str_field (v : pyval) : res string :=
  match v with
  | PyStr s => inr s
  | _ => inl ValidationError
  end.

Definition int_field (v : pyval) : res Z :=
  match v with
  | PyInt z => inr z
  | _ => inl ValidationError
  end.

(** The sixteen [row[i]] are read first, then the model is built. *)
Definition gav2item (r : row) : res ModelGAV.t :=
  v0 <~ index r 0 ;; v1 <~ index r 1 ;; v2 <~ index r 2 ;;
  v3 <~ index r 3 ;; v4 <~ index r 4 ;; v5 <~ index r 5 ;;
  v6 <~ index r 6 ;; v7 <~ index r 7 ;; v8 <~ index r 8 ;;
  v9 <~ index r 9 ;; v10 <~ index r 10 ;; v11 <~ index r 11 ;;
  v12 <~ index r 12 ;; v13 <~ index r 13 ;; v14 <~ index r 14 ;;
  v15 <~ index r 15 ;;
  group_id <~ str_field v0 ;;
  artifact_id <~ str_field v1 ;;
  artifact_version <~ str_field v2 ;;
  file_name <~ str_field v3 ;;
  major_version <~ int_field v4 ;;
  version_seq <~ int_field v5 ;;
  last_modified <~ str_field v6 ;;
  size <~ int_field v7 ;;
  sha1 <~ str_field v8 ;;
  signature_exists <~ int_field v9 ;;
  sources_exists <~ int_field v10 ;;
  javadoc_exists <~ int_field v11 ;;
  classifier <~ str_field v12 ;;
  file_extension <~ str_field v13 ;;
  packaging <~ str_field v14 ;;
  name <~ str_field v15 ;;
  inr (ModelGAV.Build group_id artifact_id artifact_version file_name
         major_version version_seq last_modified size sha1
         signature_exists sources_exists javadoc_exists
         classifier file_extension packaging name).

(** [ModelLastModified(last_modified=row[0])] *)
Definition last_modified_item (r : row) : res ModelLastModified.t :=
  v0 <~ index r 0 ;;
  last_modified <~ str_field v0 ;;
  inr (ModelLastModified.Build last_modified).

(** [ModelUpgrade(artifact_version=row[0], last_modified=row[1])] *)
Definition upgrade_item (r : row) : res ModelUpgrade.t :=
  v0 <~ index r 0 ;; v1 <~ index r 1 ;;
  artifact_version <~ str_field v0 ;;
  last_modified <~ str_field v1 ;;
  inr (ModelUpgrade.Build artifact_version last_modified).

(** [items = []; for row in rows: items.append(f(row))] *)
Fixpoint append_each {A} (f : row -> res A) (rows : list row)
  : res (list A) :=
  match rows with
  | [] => inr []
  | r :: rest =>
      item <~ f r ;;
      items <~ append_each f rest ;;
      inr (item :: items)
  end.

(* ================================================================== *)
(** * os.path.splitext *)

Fixpoint rfind_from (c : ascii) (s : string) (i found : Z) : Z :=
  match s with
  | EmptyString => found
  | String d s' => rfind_from c s' (i + 1) (if Ascii.eqb d c then i else found)
  end.

(** [s.rfind(c)]: the last index of [c], or -1. *)
Definition rfind (s : string) (c : ascii) : Z := rfind_from c s 0 (-1).

(** The loop that skips leading dots: [true] as soon as a character that is
    not a dot stands between [filenameIndex] and [dotIndex]. *)
Fixpoint has_name_before_dot (p : string) (filenameIndex steps : nat)
  : bool :=
  match steps with
  | O => false
  | S steps' =>
      if negb (String.eqb (substring filenameIndex 1 p) ".") then true
      else has_name_before_dot p (S filenameIndex) steps'
  end.

Definition splitext (p : string) : string * string :=
  let sepIndex := rfind p "/" in
  let dotIndex := rfind p "." in
  if (sepIndex <? dotIndex)
     && has_name_before_dot p (Z.to_nat (sepIndex + 1))
          (Z.to_nat (dotIndex - (sepIndex + 1)))
  then (substring 0 (Z.to_nat dotIndex) p,
        substring (Z.to_nat dotIndex)
                  (String.length p - Z.to_nat dotIndex) p)
  else (p, "").

(* ================================================================== *)
(** * Parameter constraints *)

(** [Path(max_length=n)] *)
Definition Path_max_length (max_length : nat) (value : string) : M unit :=
  if Nat.leb (String.length value) max_length then ret tt
  else raise RequestValidationError.

(** [Query(le=n)] on an [int] *)
Definition Query_le (le value : Z) : M unit :=
  if value <=? le then ret tt else raise RequestValidationError.

(* ================================================================== *)
(** * Route handlers *)

(** [GET /] and [GET /api/]: both functions are called [root] in the
    source. *)
Definition root : M string := ret "Server is up and running..".

Definition root_api : M string := ret "API Server is up and running..".

(** [GET /api/file/{file_name}] *)
Definition gav_file_name (file_name : string) : M ModelGAV.t :=
  Path_max_length MAXLEN_FILE_NAME file_name >>
  connection <- connect ;;
  cursor <- connection_cursor connection ;;
  cursor <- cursor_execute cursor SQL_GAV_SELECT_FILE_NAME
              [PyStr file_name] ;;
  let '(row, cursor) := cursor_fetchone cursor in
  match truthy row with
  | None =>
      raise (HTTPException 404 ("File " ++ file_name ++ " not found"))
  | Some row =>
      item <- lift (gav2item row) ;;
      cursor_close cursor >>
      connection_close connection >>
      ret item
  end.

(** [GET /api/filelastmodified/{file_name}] *)
Definition gav_file_last_modified (file_name : string)
  : M ModelLastModified.t :=
  Path_max_length MAXLEN_FILE_NAME file_name >>
  let '(filename_without_extension, extension) := splitext file_name in
  if Nat.ltb (String.length filename_without_extension) 1 then
    raise (HTTPException 400 ("File name is too short: " ++ file_name))
  else
    connection <- connect ;;
    cursor <- connection_cursor connection ;;
    cursor <- cursor_execute cursor SQL_GAV_SELECT_FILE_LAST_MODIFIED
                [PyStr (filename_without_extension ++ "%")] ;;
    let '(row, cursor) := cursor_fetchone cursor in
    match truthy row with
    | None =>
        raise (HTTPException 404 ("File " ++ file_name ++ " not found"))
    | Some row =>
        item <- lift (last_modified_item row) ;;
        cursor_close cursor >>
        connection_close connection >>
        ret item
    end.

(** [GET /api/gav]: the first of the two functions called [gav]. *)
Definition gav (skip limit : Z) : M (list ModelGAV.t) :=
  Query_le PAGE_SIZE limit >>
  connection <- connect ;;
  cursor <- connection_cursor connection ;;
  cursor <- cursor_execute cursor SQL_GAV_SELECT_ALL
              [PyInt limit; PyInt skip] ;;
  let '(rows, cursor) := cursor_fetchall cursor in
  if not_rows rows then
    raise (HTTPException 404 "No items found")
  else
    items <- lift (append_each gav2item rows) ;;
    cursor_close cursor >>
    connection_close connection >>
    ret items.

(** [GET /api/gav/{group_id}/{artifact_id}/{artifact_version}]: the second
    function called [gav]. *)
Definition gav_path (group_id artifact_id artifact_version : string)
  : M (list ModelGAV.t) :=
  Path_max_length MAXLEN_GROUP_ID group_id >>
  Path_max_length MAXLEN_ARTIFACT_ID artifact_id >>
  Path_max_length MAXLEN_ARTIFACT_VERSION artifact_version >>
  let gav_str := group_id ++ "/" ++ artifact_id ++ "/" ++ artifact_version in
  connection <- connect ;;
  cursor <- connection_cursor connection ;;
  cursor <- cursor_execute cursor SQL_GAV_SELECT_GAV
              [PyStr group_id; PyStr artifact_id; PyStr artifact_version] ;;
  let '(rows, cursor) := cursor_fetchall cursor in
  if not_rows rows then
    raise (HTTPException 404 ("GAV " ++ gav_str ++ " not found"))
  else
    items <- lift (append_each gav2item rows) ;;
    cursor_close cursor >>
    connection_close connection >>
    ret items.

(** [GET /api/fileupgrade/{file_name}] *)
Definition file_upgrade (file_name : string) (limit : Z)
  : M (list ModelUpgrade.t) :=
  Path_max_length MAXLEN_FILE_NAME file_name >>
  Query_le PAGE_SIZE_BIG limit >>
  connection <- connect ;;
  cursor <- connection_cursor connection ;;
  (* Check if the file exists in the database *)
  cursor <- cursor_execute cursor SQL_GAV_SELECT_FILE_NAME
              [PyStr file_name] ;;
  let '(row, cursor) := cursor_fetchone cursor in
  match truthy row with
  | None =>
      raise (HTTPException 404 ("File " ++ file_name ++ " not found"))
  | Some row =>
      item <- lift (gav2item row) ;;
      (* Check for newer versions of the file *)
      cursor <- cursor_execute cursor SQL_GAV_UPGRADE
                  [PyStr (ModelGAV.group_id item);
                   PyStr (ModelGAV.artifact_id item);
                   PyInt (ModelGAV.version_seq item); PyInt limit] ;;
      let '(rows, cursor) := cursor_fetchall cursor in
      if not_rows rows then
        raise (HTTPException 204
                 ("No newer versions found for file " ++ file_name))
      else
        items <- lift (append_each upgrade_item rows) ;;
        cursor_close cursor >>
        connection_close connection >>
        ret items
  end.

(** [GET /api/gavupgrade/{group_id}/{artifact_id}/{artifact_version}] *)
Definition gav_upgrade (group_id artifact_id artifact_version : string)
  (limit : Z) : M (list ModelUpgrade.t) :=
  Path_max_length MAXLEN_GROUP_ID group_id >>
  Path_max_length MAXLEN_ARTIFACT_ID artifact_id >>
  Path_max_length MAXLEN_ARTIFACT_VERSION artifact_version >>
  Query_le PAGE_SIZE_BIG limit >>
  let gav_str := group_id ++ "/" ++ artifact_id ++ "/" ++ artifact_version in
  connection <- connect ;;
  cursor <- connection_cursor connection ;;
  (* Check if the file exists in the database *)
  cursor <- cursor_execute cursor SQL_GAV_SELECT_GAV
              [PyStr group_id; PyStr artifact_id; PyStr artifact_version] ;;
  let '(row, cursor) := cursor_fetchone cursor in
  match truthy row with
  | None =>
      raise (HTTPException 404 ("GAV " ++ gav_str ++ " not found"))
  | Some row =>
      item <- lift (gav2item row) ;;
      (* Check for newer versions of the gav *)
      cursor <- cursor_execute cursor SQL_GAV_UPGRADE
                  [PyStr (ModelGAV.group_id item);
                   PyStr (ModelGAV.artifact_id item);
                   PyInt (ModelGAV.version_seq item); PyInt limit] ;;
      let '(rows, cursor) := cursor_fetchall cursor in
      if not_rows rows then
        raise (HTTPException 204
                 ("No newer versions found for GAV " ++ gav_str))
      else
        items <- lift (append_each upgrade_item rows) ;;
        cursor_close cursor >>
        connection_close connection >>
        ret items
  end.

(* ================================================================== *)
(** * The application: requests and responses *)

(** A request as the router hands it to a handler: the route is matched
    and the integers of the query string are parsed. *)
Inductive request : Type :=
| GET_root
| GET_api
| GET_api_file (file_name : string)
| GET_api_filelastmodified (file_name : string)
| GET_api_gav (skip limit : option Z)
| GET_api_gav_path (group_id artifact_id artifact_version : string)
| GET_api_fileupgrade (file_name : string) (limit : option Z)
| GET_api_gavupgrade (group_id artifact_id artifact_version : string)
                     (limit : option Z).

Inductive content : Type :=
| Empty
| Message (message : string)
| Detail (detail : string)
| Item (item : ModelGAV.t)
| LastModified (item : ModelLastModified.t)
| Items (items : list ModelGAV.t)
| Upgrades (items : list ModelUpgrade.t).

Record response : Type := Response {
  status : Z;
  body : content
}.

(** The statuses whose response carries a body; the others (below 200,
    and 204, 205, 304) are sent without one. *)
Definition is_body_allowed_for_status_code (status_code : Z) : bool :=
  negb ((status_code <? 200)
        || (status_code =? 204) || (status_code =? 205)
        || (status_code =? 304)).

(** What FastAPI answers when a handler raises: the status of an
    [HTTPException], with its detail where the status allows a body; 422 for
    a refused parameter; 500 for anything else. *)
Definition error_response (e : exn) : response :=
  match e with
  | HTTPException status_code detail =>
      Response status_code
        (if is_body_allowed_for_status_code status_code
         then Detail detail else Empty)
  | RequestValidationError => Response 422 (Detail "Unprocessable Entity")
  | _ => Response 500 (Detail "Internal Server Error")
  end.

Definition respond {A} (handler : M A) (render : A -> content)
  : world -> response * world :=
  fun w =>
    match handler w with
    | (inr a, w') => (Response 200 (render a), w')
    | (inl e, w') => (error_response e, w')
    end.

(** A query parameter left out takes its default. *)
Definition default (d : Z) (value : option Z) : Z :=
  match value with
  | Some z => z
  | None => d
  end.

Definition app (req : request) : world -> response * world :=
  match req with
  | GET_root => respond root Message
  | GET_api => respond root_api Message
  | GET_api_file file_name => respond (gav_file_name file_name) Item
  | GET_api_filelastmodified file_name =>
      respond (gav_file_last_modified file_name) LastModified
  | GET_api_gav skip limit =>
      respond (gav (default 0 skip) (default PAGE_SIZE limit)) Items
  | GET_api_gav_path g a v => respond (gav_path g a v) Items
  | GET_api_fileupgrade file_name limit =>
      respond (file_upgrade file_name (default PAGE_SIZE_BIG limit)) Upgrades
  | GET_api_gavupgrade g a v limit =>
      respond (gav_upgrade g a v (default PAGE_SIZE_BIG limit)) Upgrades
  end.

(** Requests served one after the other, each in the world the one
    before it left.  A connection that a handler left open stays in the
    world: when the interpreter reclaims it is not part of the model. *)
Fixpoint serve_all (reqs : list request) (w : world) : world :=
  match reqs with
  | [] => w
  | req :: rest => serve_all rest (snd (app req w))
  end.

(* ================================================================== *)
(** * Vocabulary of the statements below *)

(** The world once [connect] has opened a connection in it, and once that
    connection has been closed again. *)
Definition opened (w : world) : world :=
  World (db_available w) (db_rows w) (S (next_connection w))
        (next_connection w :: open_connections w).

Definition released (w : world) : world :=
  snd (connection_close (next_connection w) (opened w)).

(** What [connect] raises. *)
Definition unavailable : exn :=
  HTTPException 503
    "Database is under maintenance and not available. try again after 2 hours.".

(** The upgrade record of a row. *)
Definition upgrade_of (r : ModelGAV.t) : ModelUpgrade.t :=
  ModelUpgrade.Build (ModelGAV.artifact_version r) (ModelGAV.last_modified r).

(** The order [max] is taken in. *)
Definition text_le (a b : string) : Prop := String.leb a b = true.

Definition seq_le (x y : ModelGAV.t) : Prop :=
  ModelGAV.version_seq x <= ModelGAV.version_seq y.

(** [x] is accounted for by [groups]: its version has a group, and the
    group's row is at least as recent. *)
Definition covered (x : ModelGAV.t) (groups : list ModelGAV.t) : Prop :=
  exists g, In g groups
            /\ ModelGAV.artifact_version g = ModelGAV.artifact_version x
            /\ text_le (ModelGAV.last_modified x) (ModelGAV.last_modified g).

(** The groups of [SQL_GAV_UPGRADE] before [LIMIT]. *)
Definition upgrade_groups (g a : string) (n : Z) (t : table)
  : list ModelGAV.t :=
  order_by_version_seq
    (sql_distinct (group_by_artifact_version (filter (where_upgrade g a n) t))).

(** Connection handles are handed out in increasing order: the open ones
    are below the next one. *)
Definition handles_fresh (w : world) : Prop :=
  Forall (fun c => (c < next_connection w)%nat) (open_connections w).

(** The reading of "starts with" that a specification of the
    last-modified lookup has in mind: the maximum over the rows whose
    [file_name] has [stem] as a prefix, character for character. *)
Definition max_last_modified_starting_with (stem : string) (t : table)
  : pyval :=
  sql_max (map ModelGAV.last_modified
             (filter (fun r => String.prefix stem (ModelGAV.file_name r)) t)).

(** ** A small dataset *)

Definition example_1_0 : ModelGAV.t :=
  ModelGAV.Build "com.example" "example" "1.0" "example-1.0.jar"
    1 5 "2023-01-01" 1024 "2ef7bde608ce5404e97d5f042f95f89f1c232871"
    1 1 1 "" "jar" "jar" "example".

Definition example_2_0 : ModelGAV.t :=
  ModelGAV.Build "com.example" "example" "2.0" "example-2.0.jar"
    2 8 "2024-01-01" 2048 "7c211433f02071597741e6ff5a8ea34789abbf43"
    1 1 1 "" "jar" "jar" "example".

Definition example_3_0 : ModelGAV.t :=
  ModelGAV.Build "com.example" "example" "3.0" "example-3.0.jar"
    3 9 "2025-01-01" 4096 "4bf5122f344554c53bde2ebb8cd2b7e3d1600ad6"
    1 0 0 "" "jar" "jar" "example".

Definition dataset : table := [example_1_0; example_2_0; example_3_0].

(** Two files whose names differ in the character under a [_]. *)
Definition a_b : ModelGAV.t :=
  ModelGAV.Build "org.sample" "a_b" "1.0" "a_b.jar"
    1 1 "2020-01-01" 10 "da39a3ee5e6b4b0d3255bfef95601890afd80709"
    0 0 0 "" "jar" "jar" "a_b".

Definition axb : ModelGAV.t :=
  ModelGAV.Build "org.sample" "axb" "1.0" "axb.jar"
    1 1 "2025-01-01" 10 "da39a3ee5e6b4b0d3255bfef95601890afd80709"
    0 0 0 "" "jar" "jar" "axb".

(** A process that has just started on a database that can be opened. *)
Definition started (t : table) : world := World true t 0%nat [].

(** ** Vocabulary of the further properties *)

(** The constraints the handlers declare on their parameters
    ([Path(max_length=...)], [Query(le=...)]), request by request. *)
Definition admitted (req : request) : bool :=
  match req with
  | GET_root | GET_api => true
  | GET_api_file file_name
  | GET_api_filelastmodified file_name =>
      Nat.leb (String.length file_name) MAXLEN_FILE_NAME
  | GET_api_gav skip limit => default PAGE_SIZE limit <=? PAGE_SIZE
  | GET_api_gav_path g a v =>
      Nat.leb (String.length g) MAXLEN_GROUP_ID
      && Nat.leb (String.length a) MAXLEN_ARTIFACT_ID
      && Nat.leb (String.length v) MAXLEN_ARTIFACT_VERSION
  | GET_api_fileupgrade file_name limit =>
      Nat.leb (String.length file_name) MAXLEN_FILE_NAME
      && (default PAGE_SIZE_BIG limit <=? PAGE_SIZE_BIG)
  | GET_api_gavupgrade g a v limit =>
      Nat.leb (String.length g) MAXLEN_GROUP_ID
      && Nat.leb (String.length a) MAXLEN_ARTIFACT_ID
      && Nat.leb (String.length v) MAXLEN_ARTIFACT_VERSION
      && (default PAGE_SIZE_BIG limit <=? PAGE_SIZE_BIG)
  end.


(** The records of a page, none when the handler raised. *)
Definition page_items (outcome : res (list ModelGAV.t)) : list ModelGAV.t :=
  match outcome with
  | inr items => items
  | inl _ => []
  end.

(** The statuses a handler answers after it has opened its connection and
    before it closes it. *)
Definition raised_after_connect (status_code : Z) : bool :=
  (status_code =? 404) || (status_code =? 204) || (status_code =? 500).

(** What the route templates accept for a path parameter
    ([{file_name}], [{group_id}], ...): a segment that is not empty and holds
    no [/].  Any other URL matches no route and reaches no handler. *)
Fixpoint has_slash (s : string) : bool :=
  match s with
  | EmptyString => false
  | String c s' => Ascii.eqb c "/" || has_slash s'
  end.

Definition routable_segment (s : string) : bool :=
  negb (String.eqb s "") && negb (has_slash s).

Definition routable (req : request) : bool :=
  match req with
  | GET_root | GET_api | GET_api_gav _ _ => true
  | GET_api_file file_name
  | GET_api_filelastmodified file_name
  | GET_api_fileupgrade file_name _ => routable_segment file_name
  | GET_api_gav_path g a v
  | GET_api_gavupgrade g a v _ =>
      routable_segment g && routable_segment a && routable_segment v
  end.

(** The integers of a request, defaults included, and a size up to which
    the digits of the query string are sure to be read as an [int]: pydantic
    refuses an integer written with more than 4300 digits, and one below
    [2 ^ 14000] in absolute value has fewer than 4300. *)
Definition int_parameters (req : request) : list Z :=
  match req with
  | GET_api_gav skip limit => [default 0 skip; default PAGE_SIZE limit]
  | GET_api_fileupgrade _ limit
  | GET_api_gavupgrade _ _ _ limit => [default PAGE_SIZE_BIG limit]
  | _ => []
  end.

Definition int_parses (z : Z) : bool := Z.log2 (Z.abs z) <? 14000.

Definition integers_parse (req : request) : bool :=
  forallb int_parses (int_parameters req).

(** A tuple whose first sixteen elements have the Python types of the
    columns of [SQL_SELECT_GAV]. *)
Definition column_types_match (r : row) : bool :=
  match r with
  | PyStr _ :: PyStr _ :: PyStr _ :: PyStr _ :: PyInt _ :: PyInt _
    :: PyStr _ :: PyInt _ :: PyStr _ :: PyInt _ :: PyInt _ :: PyInt _
    :: PyStr _ :: PyStr _ :: PyStr _ :: PyStr _ :: _ => true
  | _ => false
  end.

(* ================================================================== *)
(** * Scenarios *)

Example splitext_jar : splitext "example-1.0.jar" = ("example-1.0", ".jar").
Proof. reflexivity. Qed.

Example splitext_no_extension : splitext "doesnotexist" = ("doesnotexist", "").
Proof. reflexivity. Qed.

(** Leading dots are not an extension. *)
Example splitext_leading_dot : splitext ".jar" = (".jar", "").
Proof. reflexivity. Qed.

Example like_wildcards :
  sqlite_like "a_b%" "axb.jar" = true
  /\ sqlite_like "a_b%" "A_B-1.0.jar" = true
  /\ sqlite_like "a_b%" "ab.jar" = false.
Proof. repeat split. Qed.

Example fileupgrade_newer_version :
  fst (app (GET_api_fileupgrade "example-1.0.jar" None)
           (started [example_1_0; example_2_0]))
  = Response 200 (Upgrades [ModelUpgrade.Build "2.0" "2024-01-01"]).
Proof. reflexivity. Qed.

Example fileupgrade_latest_version :
  fst (app (GET_api_fileupgrade "example-2.0.jar" None)
           (started [example_1_0; example_2_0]))
  = Response 204 Empty.
Proof. reflexivity. Qed.

Example gav_limit_101_refused :
  status (fst (app (GET_api_gav None (Some 101)) (started dataset))) = 422.
Proof. reflexivity. Qed.

Example database_down :
  status (fst (app (GET_api_file "example-1.0.jar")
                   (World false dataset 0%nat []))) = 503.
Proof. reflexivity. Qed.

(* ================================================================== *)
(** * Running the sqlite3 layer *)

Lemma is_open_opened w : is_open (next_connection w) (opened w) = true.
Proof.
  unfold is_open, opened; cbn [open_connections existsb].
  now rewrite Nat.eqb_refl.
Qed.

Lemma connection_cursor_open c w :
  is_open c w = true -> connection_cursor c w = (inr (Cursor c []), w).
Proof. unfold connection_cursor; now intros ->. Qed.

Lemma cursor_execute_open cur sql params w :
  is_open (cursor_connection cur) w = true ->
  cursor_execute cur sql params w =
  match run_statement sql params (db_rows w) with
  | inl e => (inl e, w)
  | inr rows => (inr (Cursor (cursor_connection cur) rows), w)
  end.
Proof. unfold cursor_execute; now intros ->. Qed.

Lemma for_each_pragmas c w l :
  is_open c w = true ->
  for_each (map PRAGMA l)
    (fun sql => cur' <- cursor_execute (Cursor c []) sql [] ;; ret tt) w
  = (inr tt, w).
Proof.
  intros Hopen; induction l as [|s l IH]; cbn [map for_each]; [reflexivity|].
  unfold bind at 1. unfold bind at 1.
  rewrite cursor_execute_open by exact Hopen.
  cbn [run_statement]. unfold ret at 1. exact IH.
Qed.

Lemma sqlite3_connect_ok w :
  db_available w = true ->
  sqlite3_connect w = (inr (next_connection w), opened w).
Proof.
  unfold sqlite3_connect, opened.
  destruct (db_available w); [reflexivity | discriminate].
Qed.

Lemma connect_ok w :
  db_available w = true -> connect w = (inr (next_connection w), opened w).
Proof.
  intros Hup.
  unfold connect, try_except_OperationalError.
  unfold bind at 1. rewrite (sqlite3_connect_ok _ Hup).
  unfold bind at 1.
  rewrite (connection_cursor_open _ _ (is_open_opened w)).
  unfold bind at 1.
  change SQL_PERF_TUNE with
    (map PRAGMA
       [ "PRAGMA query_only = 1;"; "PRAGMA journal_mode = DELETE;";
         "PRAGMA synchronous = 0;"; "PRAGMA cache_size = 100000;";
         "PRAGMA journal_size_limit = 33554432;";
         "PRAGMA mmap_size = 536870912;"; "PRAGMA synchronous = normal;";
         "PRAGMA temp_store = MEMORY;" ]).
  rewrite (for_each_pragmas _ _ _ (is_open_opened w)).
  reflexivity.
Qed.

Lemma connect_down w :
  db_available w = false ->
  connect w =
  (inl (HTTPException 503
     "Database is under maintenance and not available. try again after 2 hours."),
   w).
Proof.
  intros Hdown.
  unfold connect, try_except_OperationalError.
  unfold bind at 1. unfold sqlite3_connect. now rewrite Hdown.
Qed.

(** [connection = DBMetadata.connect()], then the rest of a handler. *)
Lemma run_connect {A} (k : connection -> M A) w :
  (connection <- connect ;; k connection) w =
  if db_available w then k (next_connection w) (opened w)
  else (inl unavailable, w).
Proof.
  unfold bind at 1.
  destruct (db_available w) eqn:Hup.
  - now rewrite (connect_ok _ Hup).
  - now rewrite (connect_down _ Hup).
Qed.

(** [cursor = connection.cursor(); cursor.execute(sql, params)] on the
    connection that was just opened. *)
Lemma run_cursor_execute {A} (k : cursor -> M A) sql params w :
  (cursor <- connection_cursor (next_connection w) ;;
   cursor <- cursor_execute cursor sql params ;;
   k cursor) (opened w) =
  match run_statement sql params (db_rows w) with
  | inl e => (inl e, opened w)
  | inr rows => k (Cursor (next_connection w) rows) (opened w)
  end.
Proof.
  unfold bind at 1.
  rewrite (connection_cursor_open _ _ (is_open_opened w)).
  unfold bind at 1.
  rewrite cursor_execute_open by apply is_open_opened.
  cbn [db_rows opened cursor_connection].
  now destruct (run_statement sql params (db_rows w)).
Qed.

(** A second [cursor.execute] on the same cursor. *)
Lemma run_execute_again {A} (k : cursor -> M A) pending sql params w :
  (cursor <- cursor_execute (Cursor (next_connection w) pending) sql params ;;
   k cursor) (opened w) =
  match run_statement sql params (db_rows w) with
  | inl e => (inl e, opened w)
  | inr rows => k (Cursor (next_connection w) rows) (opened w)
  end.
Proof.
  unfold bind at 1.
  rewrite cursor_execute_open by apply is_open_opened.
  cbn [db_rows opened cursor_connection].
  now destruct (run_statement sql params (db_rows w)).
Qed.

(** [cursor.close(); connection.close(); return item] *)
Lemma run_close {A} (item : A) cur w :
  (cursor_close cur >> connection_close (next_connection w) >> ret item)
    (opened w) = (inr item, released w).
Proof. reflexivity. Qed.

Lemma run_lift {A B} (r : res A) (k : A -> M B) w :
  (x <- lift r ;; k x) w =
  match r with
  | inl e => (inl e, w)
  | inr a => k a w
  end.
Proof. unfold bind, lift; now destruct r. Qed.

Lemma run_Path_max_length {A} n value (k : M A) w :
  (Path_max_length n value >> k) w =
  if Nat.leb (String.length value) n then k w
  else (inl RequestValidationError, w).
Proof.
  unfold bind, Path_max_length.
  now destruct (Nat.leb (String.length value) n).
Qed.

Lemma run_Query_le {A} le value (k : M A) w :
  (Query_le le value >> k) w =
  if value <=? le then k w else (inl RequestValidationError, w).
Proof. unfold bind, Query_le; now destruct (value <=? le). Qed.

(* ================================================================== *)
(** * The row mapper on the rows the catalogue selects *)

Lemma gav2item_select_gav r : gav2item (select_gav r) = inr r.
Proof. now destruct r. Qed.

Lemma append_each_gav2item l :
  append_each gav2item (map select_gav l) = inr l.
Proof.
  induction l as [|r l IH]; [reflexivity|].
  cbn [map append_each]. rewrite gav2item_select_gav, IH. reflexivity.
Qed.

Lemma append_each_upgrade_item l :
  append_each upgrade_item (map upgrade_columns l) = inr (map upgrade_of l).
Proof.
  induction l as [|r l IH]; [reflexivity|].
  cbn [map append_each]. rewrite IH. reflexivity.
Qed.

(* ================================================================== *)
(** * LIMIT and OFFSET *)

Lemma sqlite_limit_map {A B} (f : A -> B) n l :
  sqlite_limit n (map f l) = map f (sqlite_limit n l).
Proof.
  unfold sqlite_limit. destruct (n <? 0); [reflexivity|].
  apply firstn_map.
Qed.

Lemma sqlite_offset_map {A B} (f : A -> B) n l :
  sqlite_offset n (map f l) = map f (sqlite_offset n l).
Proof.
  unfold sqlite_offset. destruct (n <? 0); [reflexivity|].
  apply skipn_map.
Qed.

Lemma sqlite_limit_length {A} n (l : list A) :
  0 <= n -> Z.of_nat (List.length (sqlite_limit n l)) <= n.
Proof.
  intros Hn. unfold sqlite_limit.
  destruct (Z.ltb_spec n 0); [lia|].
  rewrite length_firstn. lia.
Qed.

Lemma sqlite_limit_incl {A} n (l : list A) : incl (sqlite_limit n l) l.
Proof.
  unfold sqlite_limit. destruct (n <? 0).
  - apply incl_refl.
  - intros x Hx. rewrite <- (firstn_skipn (Z.to_nat n) l).
    apply in_or_app; now left.
Qed.

Lemma sqlite_limit_negative {A} n (l : list A) :
  n < 0 -> sqlite_limit n l = l.
Proof.
  intros Hn. unfold sqlite_limit. now destruct (Z.ltb_spec n 0); [|lia].
Qed.

Lemma sqlite_offset_negative {A} n (l : list A) :
  n < 0 -> sqlite_offset n l = sqlite_offset 0 l.
Proof.
  intros Hn. unfold sqlite_offset. now destruct (Z.ltb_spec n 0); [|lia].
Qed.

(* ================================================================== *)
(** * What each handler returns, read off the table *)

Lemma sqlite_limit_1 {A} (l : list A) :
  sqlite_limit 1 l = match l with [] => [] | r :: _ => [r] end.
Proof. now destruct l. Qed.

Lemma gav_file_name_run file_name w :
  gav_file_name file_name w =
  if Nat.leb (String.length file_name) MAXLEN_FILE_NAME then
    if db_available w then
      match filter (where_file_name file_name) (db_rows w) with
      | [] =>
          (inl (HTTPException 404 ("File " ++ file_name ++ " not found")),
           opened w)
      | r :: _ => (inr r, released w)
      end
    else (inl unavailable, w)
  else (inl RequestValidationError, w).
Proof.
  unfold gav_file_name.
  rewrite run_Path_max_length.
  destruct (Nat.leb (String.length file_name) MAXLEN_FILE_NAME);
    [|reflexivity].
  rewrite run_connect. destruct (db_available w); [|reflexivity].
  rewrite run_cursor_execute. cbn [run_statement].
  unfold select_file_name. rewrite sqlite_limit_map, sqlite_limit_1.
  destruct (filter (where_file_name file_name) (db_rows w)) as [|r rest].
  - reflexivity.
  - cbn [map cursor_fetchone cursor_rows cursor_connection].
    change (truthy (Some (select_gav r))) with (Some (select_gav r)).
    cbv iota. rewrite run_lift, gav2item_select_gav. apply run_close.
Qed.

Lemma gav_file_last_modified_run file_name w :
  gav_file_last_modified file_name w =
  if Nat.leb (String.length file_name) MAXLEN_FILE_NAME then
    if Nat.ltb (String.length (fst (splitext file_name))) 1 then
      (inl (HTTPException 400 ("File name is too short: " ++ file_name)), w)
    else if db_available w then
      match sql_max (map ModelGAV.last_modified
                       (filter (where_file_name_like
                                  (fst (splitext file_name) ++ "%"))
                               (db_rows w))) with
      | PyStr s => (inr (ModelLastModified.Build s), released w)
      | _ => (inl ValidationError, opened w)
      end
    else (inl unavailable, w)
  else (inl RequestValidationError, w).
Proof.
  unfold gav_file_last_modified.
  rewrite run_Path_max_length.
  destruct (Nat.leb (String.length file_name) MAXLEN_FILE_NAME);
    [|reflexivity].
  destruct (splitext file_name) as [stem ext]. cbn [fst].
  destruct (Nat.ltb (String.length stem) 1); [reflexivity|].
  rewrite run_connect. destruct (db_available w); [|reflexivity].
  rewrite run_cursor_execute. cbn [run_statement].
  unfold select_file_last_modified. rewrite sqlite_limit_1.
  cbn [cursor_fetchone cursor_rows cursor_connection truthy].
  rewrite run_lift.
  destruct (sql_max _); reflexivity.
Qed.

Lemma gav_run skip limit w :
  gav skip limit w =
  if limit <=? PAGE_SIZE then
    if db_available w then
      if fits_int64 limit then
        if fits_int64 skip then
          match sqlite_limit limit (sqlite_offset skip (db_rows w)) with
          | [] => (inl (HTTPException 404 "No items found"), opened w)
          | r :: rest => (inr (r :: rest), released w)
          end
        else (inl OverflowError, opened w)
      else (inl OverflowError, opened w)
    else (inl unavailable, w)
  else (inl RequestValidationError, w).
Proof.
  unfold gav.
  rewrite run_Query_le. destruct (limit <=? PAGE_SIZE); [|reflexivity].
  rewrite run_connect. destruct (db_available w); [|reflexivity].
  rewrite run_cursor_execute. cbn [run_statement]. unfold bind_int.
  destruct (fits_int64 limit); [|reflexivity].
  destruct (fits_int64 skip); [|reflexivity].
  cbn [rbind]. unfold select_all.
  rewrite sqlite_offset_map, sqlite_limit_map.
  cbn [cursor_fetchall cursor_rows cursor_connection].
  destruct (sqlite_limit limit (sqlite_offset skip (db_rows w)))
    as [|r rest] eqn:Hrows; [reflexivity|].
  cbn [map not_rows]. rewrite run_lift.
  change (select_gav r :: map select_gav rest)
    with (map select_gav (r :: rest)).
  rewrite append_each_gav2item. apply run_close.
Qed.

Lemma gav_path_run g a v w :
  gav_path g a v w =
  if Nat.leb (String.length g) MAXLEN_GROUP_ID then
    if Nat.leb (String.length a) MAXLEN_ARTIFACT_ID then
      if Nat.leb (String.length v) MAXLEN_ARTIFACT_VERSION then
        if db_available w then
          match sqlite_limit PAGE_SIZE (filter (where_gav g a v) (db_rows w))
          with
          | [] =>
              (inl (HTTPException 404
                      ("GAV " ++ (g ++ "/" ++ a ++ "/" ++ v) ++ " not found")),
               opened w)
          | r :: rest => (inr (r :: rest), released w)
          end
        else (inl unavailable, w)
      else (inl RequestValidationError, w)
    else (inl RequestValidationError, w)
  else (inl RequestValidationError, w).
Proof.
  unfold gav_path.
  rewrite run_Path_max_length.
  destruct (Nat.leb (String.length g) MAXLEN_GROUP_ID); [|reflexivity].
  rewrite run_Path_max_length.
  destruct (Nat.leb (String.length a) MAXLEN_ARTIFACT_ID); [|reflexivity].
  rewrite run_Path_max_length.
  destruct (Nat.leb (String.length v) MAXLEN_ARTIFACT_VERSION);
    [|reflexivity].
  cbv zeta.
  rewrite run_connect. destruct (db_available w); [|reflexivity].
  rewrite run_cursor_execute. cbn [run_statement].
  unfold select_gav_rows. rewrite sqlite_limit_map.
  cbn [cursor_fetchall cursor_rows cursor_connection].
  destruct (sqlite_limit PAGE_SIZE (filter (where_gav g a v) (db_rows w)))
    as [|r rest] eqn:Hrows; [reflexivity|].
  cbn [map not_rows]. rewrite run_lift.
  change (select_gav r :: map select_gav rest)
    with (map select_gav (r :: rest)).
  rewrite append_each_gav2item. apply run_close.
Qed.

(** The second half of both upgrade handlers. *)
Lemma run_newer_versions pending item limit message w :
  (cursor <- cursor_execute (Cursor (next_connection w) pending)
               SQL_GAV_UPGRADE
               [PyStr (ModelGAV.group_id item);
                PyStr (ModelGAV.artifact_id item);
                PyInt (ModelGAV.version_seq item); PyInt limit] ;;
   let '(rows, cursor) := cursor_fetchall cursor in
   if not_rows rows then raise (HTTPException 204 message)
   else
     items <- lift (append_each upgrade_item rows) ;;
     cursor_close cursor >>
     connection_close (next_connection w) >>
     ret items) (opened w) =
  if fits_int64 (ModelGAV.version_seq item) then
    if fits_int64 limit then
      match newer_versions (ModelGAV.group_id item) (ModelGAV.artifact_id item)
              (ModelGAV.version_seq item) limit (db_rows w) with
      | [] => (inl (HTTPException 204 message), opened w)
      | r :: rest => (inr (map upgrade_of (r :: rest)), released w)
      end
    else (inl OverflowError, opened w)
  else (inl OverflowError, opened w).
Proof.
  rewrite run_execute_again. cbn [run_statement]. unfold bind_int.
  destruct (fits_int64 (ModelGAV.version_seq item)); [|reflexivity].
  destruct (fits_int64 limit); [|reflexivity].
  cbn [rbind]. unfold select_upgrade.
  cbn [cursor_fetchall cursor_rows cursor_connection].
  destruct (newer_versions _ _ _ _ _) as [|r rest]; [reflexivity|].
  cbn [map not_rows]. rewrite run_lift.
  change (upgrade_columns r :: map upgrade_columns rest)
    with (map upgrade_columns (r :: rest)).
  rewrite append_each_upgrade_item. apply run_close.
Qed.

Lemma file_upgrade_run file_name limit w :
  file_upgrade file_name limit w =
  if Nat.leb (String.length file_name) MAXLEN_FILE_NAME then
    if limit <=? PAGE_SIZE_BIG then
      if db_available w then
        match filter (where_file_name file_name) (db_rows w) with
        | [] =>
            (inl (HTTPException 404 ("File " ++ file_name ++ " not found")),
             opened w)
        | item :: _ =>
            if fits_int64 (ModelGAV.version_seq item) then
              if fits_int64 limit then
                match newer_versions (ModelGAV.group_id item)
                        (ModelGAV.artifact_id item)
                        (ModelGAV.version_seq item) limit (db_rows w) with
                | [] =>
                    (inl (HTTPException 204
                            ("No newer versions found for file " ++ file_name)),
                     opened w)
                | r :: rest => (inr (map upgrade_of (r :: rest)), released w)
                end
              else (inl OverflowError, opened w)
            else (inl OverflowError, opened w)
        end
      else (inl unavailable, w)
    else (inl RequestValidationError, w)
  else (inl RequestValidationError, w).
Proof.
  unfold file_upgrade.
  rewrite run_Path_max_length.
  destruct (Nat.leb (String.length file_name) MAXLEN_FILE_NAME);
    [|reflexivity].
  rewrite run_Query_le. destruct (limit <=? PAGE_SIZE_BIG); [|reflexivity].
  rewrite run_connect. destruct (db_available w); [|reflexivity].
  rewrite run_cursor_execute. cbn [run_statement].
  unfold select_file_name. rewrite sqlite_limit_map, sqlite_limit_1.
  destruct (filter (where_file_name file_name) (db_rows w)) as [|item rest].
  - reflexivity.
  - cbn [map cursor_fetchone cursor_rows cursor_connection].
    change (truthy (Some (select_gav item))) with (Some (select_gav item)).
    cbv iota. rewrite run_lift, gav2item_select_gav.
    apply run_newer_versions.
Qed.

Lemma sqlite_limit_PAGE_SIZE_head {A} (l : list A) :
  sqlite_limit PAGE_SIZE l =
  match l with
  | [] => []
  | r :: rest => r :: sqlite_limit 99 rest
  end.
Proof. now destruct l. Qed.

Lemma gav_upgrade_run g a v limit w :
  gav_upgrade g a v limit w =
  if Nat.leb (String.length g) MAXLEN_GROUP_ID then
    if Nat.leb (String.length a) MAXLEN_ARTIFACT_ID then
      if Nat.leb (String.length v) MAXLEN_ARTIFACT_VERSION then
        if limit <=? PAGE_SIZE_BIG then
          if db_available w then
            match filter (where_gav g a v) (db_rows w) with
            | [] =>
                (inl (HTTPException 404
                        ("GAV " ++ (g ++ "/" ++ a ++ "/" ++ v)
                         ++ " not found")),
                 opened w)
            | item :: _ =>
                if fits_int64 (ModelGAV.version_seq item) then
                  if fits_int64 limit then
                    match newer_versions (ModelGAV.group_id item)
                            (ModelGAV.artifact_id item)
                            (ModelGAV.version_seq item) limit (db_rows w)
                    with
                    | [] =>
                        (inl (HTTPException 204
                                ("No newer versions found for GAV "
                                 ++ (g ++ "/" ++ a ++ "/" ++ v))),
                         opened w)
                    | r :: rest =>
                        (inr (map upgrade_of (r :: rest)), released w)
                    end
                  else (inl OverflowError, opened w)
                else (inl OverflowError, opened w)
            end
          else (inl unavailable, w)
        else (inl RequestValidationError, w)
      else (inl RequestValidationError, w)
    else (inl RequestValidationError, w)
  else (inl RequestValidationError, w).
Proof.
  unfold gav_upgrade.
  rewrite run_Path_max_length.
  destruct (Nat.leb (String.length g) MAXLEN_GROUP_ID); [|reflexivity].
  rewrite run_Path_max_length.
  destruct (Nat.leb (String.length a) MAXLEN_ARTIFACT_ID); [|reflexivity].
  rewrite run_Path_max_length.
  destruct (Nat.leb (String.length v) MAXLEN_ARTIFACT_VERSION);
    [|reflexivity].
  rewrite run_Query_le. destruct (limit <=? PAGE_SIZE_BIG); [|reflexivity].
  cbv zeta.
  rewrite run_connect. destruct (db_available w); [|reflexivity].
  rewrite run_cursor_execute. cbn [run_statement].
  unfold select_gav_rows.
  rewrite sqlite_limit_map, sqlite_limit_PAGE_SIZE_head.
  destruct (filter (where_gav g a v) (db_rows w)) as [|item rest].
  - reflexivity.
  - cbn [map cursor_fetchone cursor_rows cursor_connection].
    change (truthy (Some (select_gav item))) with (Some (select_gav item)).
    cbv iota. rewrite run_lift, gav2item_select_gav.
    apply run_newer_versions.
Qed.

(* ================================================================== *)
(** * The order on TEXT values *)

Lemma compare_as_OT a b : String.compare a b = String_as_OT.compare a b.
Proof.
  revert b; induction a as [|c a IH]; intros [|d b]; reflexivity.
Qed.

Lemma text_lt_irrefl a : ~ String_as_OT.lt a a.
Proof. exact (StrictOrder_Irreflexive a). Qed.

Lemma text_lt_asym a b : String_as_OT.lt a b -> String_as_OT.lt b a -> False.
Proof.
  intros Hab Hba.
  exact (text_lt_irrefl a (StrictOrder_Transitive _ _ _ Hab Hba)).
Qed.

Lemma text_le_iff a b : text_le a b <-> ~ String_as_OT.lt b a.
Proof.
  unfold text_le, String.leb. rewrite compare_as_OT.
  destruct (String_as_OT.compare_spec a b) as [E|H|H]; cbv iota.
  - split; [intros _ Hlt|reflexivity].
    rewrite E in Hlt. exact (text_lt_irrefl _ Hlt).
  - split; [intros _ Hlt|reflexivity]. exact (text_lt_asym _ _ H Hlt).
  - split; [discriminate|]. intros Hn; now destruct (Hn H).
Qed.

Lemma text_le_refl a : text_le a a.
Proof. apply text_le_iff, text_lt_irrefl. Qed.

Lemma text_le_trans a b c : text_le a b -> text_le b c -> text_le a c.
Proof.
  rewrite !text_le_iff. intros Hab Hbc Hca.
  destruct (String_as_OT.compare_spec b c) as [E|H|H].
  - rewrite E in Hab. exact (Hab Hca).
  - exact (Hab (StrictOrder_Transitive _ _ _ H Hca)).
  - exact (Hbc H).
Qed.

Lemma ltb_true_le a b : String.ltb a b = true -> text_le a b.
Proof.
  unfold text_le, String.ltb, String.leb.
  now destruct (String.compare a b).
Qed.

Lemma ltb_false_le a b : String.ltb a b = false -> text_le b a.
Proof.
  unfold text_le, String.ltb, String.leb.
  rewrite (String.compare_antisym b a).
  now destruct (String.compare a b).
Qed.

Lemma text_max_ge_l a b : text_le a (text_max a b).
Proof.
  unfold text_max. destruct (String.ltb a b) eqn:H.
  - now apply ltb_true_le.
  - apply text_le_refl.
Qed.

Lemma text_max_ge_r a b : text_le b (text_max a b).
Proof.
  unfold text_max. destruct (String.ltb a b) eqn:H.
  - apply text_le_refl.
  - now apply ltb_false_le.
Qed.

Lemma text_max_cases a b : text_max a b = a \/ text_max a b = b.
Proof. unfold text_max. destruct (String.ltb a b); auto. Qed.

(** [max] picks one of the values and none of them is above it. *)
Lemma fold_text_max_in vs v : In (fold_left text_max vs v) (v :: vs).
Proof.
  revert v; induction vs as [|x vs IH]; intros v; cbn [fold_left].
  - now left.
  - destruct (IH (text_max v x)) as [H|H].
    + rewrite <- H. destruct (text_max_cases v x) as [->| ->].
      * now left.
      * right; now left.
    + right; now right.
Qed.

Lemma fold_text_max_ge_head vs v : text_le v (fold_left text_max vs v).
Proof.
  revert v; induction vs as [|y vs IH]; intros v; cbn [fold_left].
  - apply text_le_refl.
  - eapply text_le_trans; [apply (text_max_ge_l v y)|]. apply IH.
Qed.

Lemma fold_text_max_ge vs v x :
  In x (v :: vs) -> text_le x (fold_left text_max vs v).
Proof.
  revert v; induction vs as [|y vs IH]; intros v; cbn [fold_left].
  - intros [Hx|[]]. rewrite Hx. apply text_le_refl.
  - intros [Hx|[Hx|Hx]].
    + rewrite <- Hx.
      eapply text_le_trans; [apply (text_max_ge_l v y)|].
      apply fold_text_max_ge_head.
    + rewrite <- Hx.
      eapply text_le_trans; [apply (text_max_ge_r v y)|].
      apply fold_text_max_ge_head.
    + apply IH; now right.
Qed.

(* ================================================================== *)
(** * LIKE against a pattern that ends in a wildcard *)

Lemma sqlite_like_percent s : sqlite_like "%" s = true.
Proof.
  induction s as [|c s IH]; [reflexivity|].
  cbn in *. exact IH.
Qed.

(** Whatever starts with [stem] matches [stem%], also where [stem] holds
    wildcards of its own. *)
Lemma prefix_sqlite_like stem s :
  String.prefix stem s = true -> sqlite_like (stem ++ "%") s = true.
Proof.
  revert s; induction stem as [|p stem IH]; intros s.
  - intros _. apply sqlite_like_percent.
  - destruct s as [|c s]; cbn [String.prefix]; [discriminate|].
    destruct (ascii_dec p c) as [<-|]; [|discriminate].
    intros Hpre. specialize (IH _ Hpre).
    cbn [String.append sqlite_like].
    destruct (Ascii.eqb p "%").
    + rewrite orb_true_iff; right.
      destruct s; cbn [sqlite_like]; rewrite IH; reflexivity.
    + rewrite IH, Ascii.eqb_refl, orb_true_r. reflexivity.
Qed.

(* ================================================================== *)
(** * GROUP BY artifact_version with max(last_modified) *)

Section Grouping.

Local Abbreviation ver := ModelGAV.artifact_version.
Local Abbreviation lm := ModelGAV.last_modified.

Lemma newest_cases best r : newest best r = best \/ newest best r = r.
Proof. unfold newest. destruct (String.ltb _ _); auto. Qed.

Lemma newest_ge_l best r : text_le (lm best) (lm (newest best r)).
Proof.
  unfold newest. destruct (String.ltb _ _) eqn:H.
  - now apply ltb_true_le.
  - apply text_le_refl.
Qed.

Lemma newest_ge_r best r : text_le (lm r) (lm (newest best r)).
Proof.
  unfold newest. destruct (String.ltb _ _) eqn:H.
  - apply text_le_refl.
  - now apply ltb_false_le.
Qed.

Lemma newest_ver best r : ver best = ver r -> ver (newest best r) = ver r.
Proof. intros H. destruct (newest_cases best r) as [-> | ->]; auto. Qed.

Lemma aggregate_in r groups g :
  In g (aggregate r groups) -> g = r \/ In g groups.
Proof.
  induction groups as [|best groups IH]; cbn [aggregate].
  - intros [<-|[]]; now left.
  - destruct (String.eqb _ _).
    + intros [<-|H].
      * destruct (newest_cases best r) as [-> | ->]; [right; now left|now left].
      * right; now right.
    + intros [<-|H]; [right; now left|].
      destruct (IH H) as [->|H']; [now left|right; now right].
Qed.

Lemma aggregate_ver_in r groups v :
  In v (map ver (aggregate r groups)) -> v = ver r \/ In v (map ver groups).
Proof.
  induction groups as [|best groups IH]; cbn [aggregate].
  - intros [<-|[]]; now left.
  - destruct (String.eqb _ _) eqn:E.
    + apply String.eqb_eq in E. cbn [map].
      rewrite (newest_ver _ _ E). intros [<-|H]; [now left|right; now right].
    + cbn [map]. intros [<-|H]; [right; now left|].
      destruct (IH H) as [->|H']; [now left|right; now right].
Qed.

Lemma aggregate_NoDup r groups :
  NoDup (map ver groups) -> NoDup (map ver (aggregate r groups)).
Proof.
  induction groups as [|best groups IH]; cbn [aggregate map].
  - intros _. constructor; [intros []|constructor].
  - intros Hnd. inversion Hnd as [|? ? Hnotin Hnd']; subst.
    destruct (String.eqb _ _) eqn:E.
    + apply String.eqb_eq in E. cbn [map].
      rewrite (newest_ver _ _ E), <- E. now constructor.
    + apply String.eqb_neq in E. cbn [map]. constructor; [|now apply IH].
      intros Hin. destruct (aggregate_ver_in _ _ _ Hin) as [H|H]; auto.
Qed.

Lemma aggregate_covered r groups x :
  x = r \/ covered x groups -> covered x (aggregate r groups).
Proof.
  induction groups as [|best groups IH]; cbn [aggregate].
  - intros [->|(g & [] & _)].
    exists r; repeat split; [now left|apply text_le_refl].
  - destruct (String.eqb _ _) eqn:E.
    + apply String.eqb_eq in E. intros [->|(g & [<-|Hg] & Hv & Hle)].
      * exists (newest best r); repeat split;
          [now left|now apply newest_ver|apply newest_ge_r].
      * exists (newest best r); repeat split; [now left| |].
        -- rewrite (newest_ver _ _ E). congruence.
        -- eapply text_le_trans; [exact Hle|apply newest_ge_l].
      * exists g; repeat split; auto. now right.
    + intros [->|(g & [<-|Hg] & Hv & Hle)].
      * destruct (IH (or_introl eq_refl)) as (g & Hg & Hv & Hle).
        exists g; repeat split; auto. now right.
      * exists best; repeat split; auto. now left.
      * destruct (IH (or_intror (ex_intro _ g (conj Hg (conj Hv Hle)))))
          as (g' & Hg' & Hv' & Hle').
        exists g'; repeat split; auto. now right.
Qed.

Lemma group_fold_in rows acc g :
  In g (fold_left (fun groups r => aggregate r groups) rows acc) ->
  In g acc \/ In g rows.
Proof.
  revert acc; induction rows as [|r rows IH]; intros acc; cbn [fold_left].
  - now left.
  - intros H. destruct (IH _ H) as [H'|H'].
    + destruct (aggregate_in _ _ _ H') as [->|H'']; [right; now left|now left].
    + right; now right.
Qed.

Lemma group_fold_NoDup rows acc :
  NoDup (map ver acc) ->
  NoDup (map ver (fold_left (fun groups r => aggregate r groups) rows acc)).
Proof.
  revert acc; induction rows as [|r rows IH]; intros acc; cbn [fold_left].
  - auto.
  - intros H. apply IH. now apply aggregate_NoDup.
Qed.

Lemma group_fold_covered rows acc x :
  In x rows \/ covered x acc ->
  covered x (fold_left (fun groups r => aggregate r groups) rows acc).
Proof.
  revert acc; induction rows as [|r rows IH]; intros acc; cbn [fold_left].
  - intros [[]|H]; exact H.
  - intros [[<-|H]|H]; apply IH.
    + right. apply aggregate_covered. now left.
    + now left.
    + right. apply aggregate_covered. now right.
Qed.

(** Each group is a row of the input; no two groups share a version; no
    row of the input is more recent than the group of its version. *)
Lemma group_by_in rows g :
  In g (group_by_artifact_version rows) -> In g rows.
Proof.
  intros H. now destruct (group_fold_in _ _ _ H) as [[]|H'].
Qed.

Lemma group_by_NoDup rows :
  NoDup (map ver (group_by_artifact_version rows)).
Proof. apply group_fold_NoDup. constructor. Qed.

Lemma group_by_newest rows g x :
  In g (group_by_artifact_version rows) -> In x rows -> ver x = ver g ->
  text_le (lm x) (lm g).
Proof.
  intros Hg Hx Hv.
  destruct (group_fold_covered rows [] x (or_introl Hx))
    as (g' & Hg' & Hv' & Hle).
  assert (g' = g) as <-; [|exact Hle].
  pose proof (group_by_NoDup rows) as Hnd.
  fold (group_by_artifact_version rows) in Hg'.
  assert (Hvv : ver g' = ver g) by congruence.
  clear - Hnd Hg Hg' Hvv.
  induction (group_by_artifact_version rows) as [|h l IH]; [destruct Hg|].
  cbn [map] in Hnd. inversion Hnd as [|? ? Hnotin Hnd']; subst.
  destruct Hg as [->|Hg], Hg' as [->|Hg']; auto.
  - exfalso; apply Hnotin. rewrite <- Hvv. now apply in_map.
  - exfalso; apply Hnotin. rewrite Hvv. now apply in_map.
Qed.

(** [distinct] has nothing to remove: the versions already differ. *)
Lemma sql_distinct_id l : NoDup (map ver l) -> sql_distinct l = l.
Proof.
  induction l as [|r l IH]; [reflexivity|].
  cbn [map sql_distinct]. intros Hnd.
  inversion Hnd as [|? ? Hnotin Hnd']; subst.
  rewrite (IH Hnd'). f_equal.
  clear - Hnotin. induction l as [|x l IH]; [reflexivity|].
  cbn [filter]. unfold same_output at 1.
  destruct (String.eqb (ModelGAV.artifact_version r)
                       (ModelGAV.artifact_version x)) eqn:E.
  - apply String.eqb_eq in E. exfalso; apply Hnotin. left. now symmetry.
  - cbn [andb negb]. f_equal. apply IH. intros H; apply Hnotin; now right.
Qed.

End Grouping.

(* ================================================================== *)
(** * ORDER BY version_seq *)

Lemma insert_by_version_seq_perm r l :
  Permutation (insert_by_version_seq r l) (r :: l).
Proof.
  induction l as [|x l IH]; cbn [insert_by_version_seq]; [reflexivity|].
  destruct (comes_before r x); [reflexivity|].
  rewrite IH. apply perm_swap.
Qed.

Lemma order_by_version_seq_perm l : Permutation (order_by_version_seq l) l.
Proof.
  induction l as [|r l IH]; cbn; [reflexivity|].
  rewrite insert_by_version_seq_perm. now constructor.
Qed.

Lemma insert_by_version_seq_sorted r l :
  StronglySorted seq_le l -> StronglySorted seq_le (insert_by_version_seq r l).
Proof.
  induction l as [|x l IH]; cbn [insert_by_version_seq]; intros Hs.
  - constructor; [constructor|constructor].
  - inversion Hs as [|? ? Hs' Hall]; subst.
    assert (Hcmp : if comes_before r x
                   then ModelGAV.version_seq r <= ModelGAV.version_seq x
                   else ModelGAV.version_seq x <= ModelGAV.version_seq r).
    { unfold comes_before.
      destruct (Z.ltb_spec (ModelGAV.version_seq r) (ModelGAV.version_seq x));
        cbn [orb]; [lia|].
      destruct (Z.eqb_spec (ModelGAV.version_seq r) (ModelGAV.version_seq x));
        cbn [andb]; [|lia].
      destruct (String.leb _ _); lia. }
    destruct (comes_before r x); [rename Hcmp into Hle|rename Hcmp into Hgt].
    + constructor; [exact Hs|].
      constructor; [exact Hle|].
      eapply Forall_impl; [|exact Hall].
      intros y Hy. unfold seq_le in *. lia.
    + constructor; [now apply IH|].
      apply Forall_forall. intros y Hy.
      apply (Permutation_in _ (insert_by_version_seq_perm r l)) in Hy.
      destruct Hy as [<-|Hy].
      * unfold seq_le. lia.
      * rewrite Forall_forall in Hall. now apply Hall.
Qed.

Lemma order_by_version_seq_sorted l :
  StronglySorted seq_le (order_by_version_seq l).
Proof.
  induction l as [|r l IH]; cbn; [constructor|].
  now apply insert_by_version_seq_sorted.
Qed.

Lemma StronglySorted_firstn {A} (R : A -> A -> Prop) n l :
  StronglySorted R l -> StronglySorted R (firstn n l).
Proof.
  revert l; induction n as [|n IH]; intros [|x l] Hs; cbn [firstn];
    try constructor.
  - inversion Hs; subst. now apply IH.
  - inversion Hs as [|? ? _ Hall]; subst.
    apply Forall_forall. intros y Hy.
    rewrite Forall_forall in Hall. apply Hall.
    rewrite <- (firstn_skipn n l). apply in_or_app; now left.
Qed.

Lemma sqlite_limit_sorted {A} (R : A -> A -> Prop) n l :
  StronglySorted R l -> StronglySorted R (sqlite_limit n l).
Proof.
  unfold sqlite_limit. destruct (n <? 0); [auto|].
  apply StronglySorted_firstn.
Qed.

Lemma sqlite_limit_NoDup {A} n (l : list A) :
  NoDup l -> NoDup (sqlite_limit n l).
Proof.
  unfold sqlite_limit. destruct (n <? 0); [auto|].
  intros H. rewrite <- (firstn_skipn (Z.to_nat n) l) in H.
  now apply NoDup_app_remove_r in H.
Qed.

Lemma newer_versions_limit g a n limit t :
  newer_versions g a n limit t = sqlite_limit limit (upgrade_groups g a n t).
Proof. reflexivity. Qed.

Lemma upgrade_groups_perm g a n t :
  Permutation (upgrade_groups g a n t)
    (group_by_artifact_version (filter (where_upgrade g a n) t)).
Proof.
  unfold upgrade_groups.
  rewrite (sql_distinct_id _ (group_by_NoDup _)).
  apply order_by_version_seq_perm.
Qed.

Lemma where_upgrade_true g a n r :
  where_upgrade g a n r = true <->
  ModelGAV.group_id r = g /\ ModelGAV.artifact_id r = a
  /\ n < ModelGAV.version_seq r.
Proof.
  unfold where_upgrade.
  rewrite !andb_true_iff, !String.eqb_eq, Z.ltb_lt. tauto.
Qed.

(* ================================================================== *)
(** * Connections on the exit paths *)

(** Splits the outcome of a handler into its cases. *)
Ltac split_outcome :=
  repeat match goal with
  | |- context [if ?c then _ else _] => destruct c
  | |- context [match ?l with [] => _ | _ :: _ => _ end] => destruct l
  | |- context [match ?v with PyNone => _ | PyInt _ => _ | PyStr _ => _ end] =>
      destruct v
  end.

Ltac run_handler :=
  cbn [app]; unfold respond;
  rewrite ?gav_file_name_run, ?gav_file_last_modified_run, ?gav_run,
    ?gav_path_run, ?file_upgrade_run, ?gav_upgrade_run.

Lemma released_open_connections w :
  handles_fresh w -> open_connections (released w) = open_connections w.
Proof.
  unfold handles_fresh, released, opened.
  cbn [connection_close snd open_connections next_connection filter].
  rewrite Nat.eqb_refl. cbn [negb].
  generalize (next_connection w) as c.
  induction (open_connections w) as [|x l IH]; intros c Hall;
    [reflexivity|].
  inversion Hall as [|? ? Hx Hl]; subst. cbn [filter].
  destruct (Nat.eqb_spec c x) as [->|_]; [lia|].
  cbn [negb]. now rewrite (IH c Hl).
Qed.

(** X15.  The path the handlers close on: a 200 response leaves open
    exactly the connections that were open before. *)
Lemma success_exit_closes_connection req w :
  handles_fresh w ->
  status (fst (app req w)) = 200 ->
  open_connections (snd (app req w)) = open_connections w.
Proof.
  intros Hfresh. pose proof (released_open_connections w Hfresh) as Hrel.
  destruct req; run_handler; split_outcome; cbn [fst snd status error_response];
    intros Hst; try discriminate Hst; try reflexivity; exact Hrel.
Qed.


(** C1 (code defect).  The claim: every handler that opens a connection
    closes it on every exit path, error responses included.  The code closes
    on the success path only: whenever a request is answered 404 or 204, the
    connection the handler opened for it is still open when the handler is
    left. *)
Theorem error_exit_leaves_connection_open req w :
  db_available w = true ->
  status (fst (app req w)) = 404 \/ status (fst (app req w)) = 204 ->
  open_connections (snd (app req w)) =
  next_connection w :: open_connections w.
Proof.
  intros Hup.
  destruct req; run_handler; rewrite ?Hup; split_outcome;
    cbn [fst snd status error_response unavailable];
    intros [Hst|Hst]; try discriminate Hst; reflexivity.
Qed.

Lemma error_exit_leaves_connection_open_witness :
  db_available (started dataset) = true
  /\ status (fst (app (GET_api_file "missing.jar") (started dataset))) = 404
  /\ open_connections (started dataset) = []
  /\ open_connections
       (snd (app (GET_api_file "missing.jar") (started dataset))) = [0%nat].
Proof.
  split; [reflexivity|]. split; [reflexivity|]. split; [reflexivity|].
  exact (error_exit_leaves_connection_open
           (GET_api_file "missing.jar") (started dataset)
           eq_refl (or_introl eq_refl)).
Defined.

(* ================================================================== *)
(** * GET /api/filelastmodified/{file_name} *)

Lemma filter_none {A} (p : A -> bool) l :
  (forall x, In x l -> p x = false) -> filter p l = [].
Proof.
  induction l as [|x l IH]; intros H; [reflexivity|].
  cbn [filter]. rewrite (H x (or_introl eq_refl)).
  apply IH. intros y Hy. apply H. now right.
Qed.

Lemma stem_not_empty stem :
  stem <> "" -> Nat.ltb (String.length stem) 1 = false.
Proof. destruct stem; [congruence|reflexivity]. Qed.

(** X17.  The [if not row] branch of the handler is never taken: no
    request to this route is answered 404, whatever the name and the
    table. *)
Lemma filelastmodified_never_404 file_name w :
  status (fst (app (GET_api_filelastmodified file_name) w)) <> 404.
Proof.
  run_handler; split_outcome; cbn [fst status error_response unavailable];
    discriminate.
Qed.

(** C2 (code defect).  The claim: a name whose stem is not empty and that
    no row matches is answered 404.  The aggregate query returns the row
    [(None,)] when no row matches; that tuple is true, [not row] is false, and
    [ModelLastModified(last_modified=None)] raises pydantic's
    [ValidationError], which is answered 500.  The connection stays open. *)
Theorem filelastmodified_no_row_is_500 file_name w :
  (String.length file_name <= MAXLEN_FILE_NAME)%nat ->
  fst (splitext file_name) <> "" ->
  db_available w = true ->
  (forall r, In r (db_rows w) ->
     sqlite_like (fst (splitext file_name) ++ "%") (ModelGAV.file_name r)
     = false) ->
  gav_file_last_modified file_name w = (inl ValidationError, opened w)
  /\ status (fst (app (GET_api_filelastmodified file_name) w)) = 500.
Proof.
  intros Hlen Hstem Hup Hnone.
  assert (Hrun : gav_file_last_modified file_name w
                 = (inl ValidationError, opened w)).
  { rewrite gav_file_last_modified_run.
    apply Nat.leb_le in Hlen. rewrite Hlen, (stem_not_empty _ Hstem), Hup.
    unfold where_file_name_like. now rewrite (filter_none _ _ Hnone). }
  split; [exact Hrun|].
  cbn [app]. unfold respond. now rewrite Hrun.
Qed.

Lemma filelastmodified_no_row_is_500_witness :
  (String.length "doesnotexist" <= MAXLEN_FILE_NAME)%nat
  /\ fst (splitext "doesnotexist") = "doesnotexist"
  /\ db_available (started dataset) = true
  /\ (forall r, In r dataset ->
        String.prefix "doesnotexist" (ModelGAV.file_name r) = false)
  /\ gav_file_last_modified "doesnotexist" (started dataset)
     = (inl ValidationError, opened (started dataset))
  /\ status (fst (app (GET_api_filelastmodified "doesnotexist")
                      (started dataset))) = 500.
Proof.
  split; [apply Nat.leb_le; reflexivity|].
  split; [reflexivity|]. split; [reflexivity|].
  split; [intros r [<-|[<-|[<-|[]]]]; reflexivity|].
  apply (filelastmodified_no_row_is_500 "doesnotexist" (started dataset)).
  - apply Nat.leb_le; reflexivity.
  - discriminate.
  - reflexivity.
  - intros r [<-|[<-|[<-|[]]]]; reflexivity.
Defined.

(* ================================================================== *)
(** * GET /api/gav *)

(** C3 (code defect).  The claim: the list holds at most [min(L, 100)]
    rows whatever the client asks for.  [Query(le=100)] bounds [limit] from
    above only; a negative [limit] is accepted and handed to [LIMIT ?], where
    it means no bound: the handler returns every row from the offset on. *)
Theorem gav_negative_limit_returns_every_row skip limit w :
  db_available w = true ->
  limit < 0 ->
  fits_int64 limit = true ->
  fits_int64 skip = true ->
  sqlite_offset skip (db_rows w) <> [] ->
  fst (gav skip limit w) = inr (sqlite_offset skip (db_rows w)).
Proof.
  intros Hup Hneg Hlimit Hskip Hrows.
  rewrite gav_run, Hup, Hlimit, Hskip.
  replace (limit <=? PAGE_SIZE) with true
    by (symmetry; apply Z.leb_le; unfold PAGE_SIZE; lia).
  rewrite (sqlite_limit_negative _ _ Hneg).
  destruct (sqlite_offset skip (db_rows w)); [congruence|reflexivity].
Qed.

Lemma gav_negative_limit_returns_every_row_witness :
  db_available (started (repeat example_1_0 101)) = true
  /\ -1 < 0
  /\ fits_int64 (-1) = true
  /\ fits_int64 0 = true
  /\ fst (gav 0 (-1) (started (repeat example_1_0 101)))
     = inr (repeat example_1_0 101)
  /\ List.length (repeat example_1_0 101) = 101%nat
  /\ Z.min (-1) PAGE_SIZE = -1.
Proof.
  split; [reflexivity|]. split; [reflexivity|].
  split; [reflexivity|]. split; [reflexivity|].
  split; [|split; reflexivity].
  apply (gav_negative_limit_returns_every_row 0 (-1)
           (started (repeat example_1_0 101)));
    try reflexivity; discriminate.
Defined.

(** X18.  What the bound does hold for: a [limit] that is not negative
    is an upper bound on the length of the list, as is 100. *)
Lemma gav_limit_bounds_page skip limit w items :
  0 <= limit ->
  fst (gav skip limit w) = inr items ->
  Z.of_nat (List.length items) <= Z.min limit PAGE_SIZE.
Proof.
  intros Hpos. rewrite gav_run.
  destruct (Z.leb_spec limit PAGE_SIZE) as [Hle|]; [|discriminate].
  pose proof (sqlite_limit_length limit
                (sqlite_offset skip (db_rows w)) Hpos) as Hlen.
  split_outcome; cbn [fst]; intros H; try discriminate H.
  injection H as <-. lia.
Qed.

(** The claim that a negative [skip] is refused does not hold: the request
    is served. *)
Lemma gav_negative_skip_is_served :
  fst (app (GET_api_gav (Some (-1)) None) (started dataset))
  = Response 200 (Items dataset)
  /\ fst (gav (-1) PAGE_SIZE (started dataset))
     <> inl RequestValidationError.
Proof. split; [reflexivity|discriminate]. Qed.

(** C4 (amended).  [skip] carries no constraint: a negative [skip] that
    fits in 64 bits is bound to [OFFSET ?], where it counts as zero, so the
    request passes validation exactly as the one with [skip = 0] does and gets
    the same answer. *)
Theorem gav_negative_skip_is_skip_0 skip limit w :
  skip < 0 ->
  fits_int64 skip = true ->
  gav skip limit w = gav 0 limit w.
Proof.
  intros Hneg Hfits.
  rewrite !gav_run, Hfits, (sqlite_offset_negative _ _ Hneg).
  reflexivity.
Qed.

Lemma gav_negative_skip_is_skip_0_witness :
  -1 < 0
  /\ fits_int64 (-1) = true
  /\ gav (-1) 100 (started dataset) = gav 0 100 (started dataset)
  /\ fst (gav 0 100 (started dataset)) = inr dataset.
Proof.
  split; [reflexivity|]. split; [reflexivity|].
  split; [|reflexivity].
  exact (gav_negative_skip_is_skip_0 (-1) 100 (started dataset)
           eq_refl eq_refl).
Defined.

(* ================================================================== *)
(** * NewerVersions: SQL_GAV_UPGRADE *)

Lemma upgrade_groups_in g a n t r :
  In r (upgrade_groups g a n t) ->
  In r (group_by_artifact_version (filter (where_upgrade g a n) t)).
Proof. apply Permutation_in, upgrade_groups_perm. Qed.

Lemma upgrade_groups_NoDup g a n t :
  NoDup (map ModelGAV.artifact_version (upgrade_groups g a n t)).
Proof.
  eapply Permutation_NoDup; [|apply group_by_NoDup].
  apply Permutation_map, Permutation_sym, upgrade_groups_perm.
Qed.

(** C5 (code defect).  The claim: the statement never returns more than
    [limit] rows.  [Query(le=1000)] bounds the [limit] of the upgrade
    endpoints from above only; a negative [limit] is accepted and handed to
    [LIMIT ?], where it means no bound: with [limit = -1] the statement
    returns two rows, and [GET /api/fileupgrade/example-1.0.jar?limit=-1]
    answers with both. *)
Lemma newer_versions_negative_limit_unbounded :
  run_statement SQL_GAV_UPGRADE
    [PyStr "com.example"; PyStr "example"; PyInt 5; PyInt (-1)] dataset
  = inr [ [PyStr "2.0"; PyStr "2024-01-01"];
          [PyStr "3.0"; PyStr "2025-01-01"] ]
  /\ ~ Z.of_nat (List.length [ [PyStr "2.0"; PyStr "2024-01-01"];
                               [PyStr "3.0"; PyStr "2025-01-01"] ]) <= -1
  /\ fst (file_upgrade "example-1.0.jar" (-1) (started dataset))
     = inr [ ModelUpgrade.Build "2.0" "2024-01-01";
             ModelUpgrade.Build "3.0" "2025-01-01" ].
Proof. split; [reflexivity|]. split; [cbn; lia|reflexivity]. Qed.

(** X19.  For a [limit] that is not negative, the statement
    [SQL_GAV_UPGRADE] returns one row per group, [map upgrade_columns reps], where [reps] are
    the rows that stand for the groups (the row of each version that holds
    its maximal [last_modified], whose [version_seq] is the one [ORDER BY]
    reads):
    - each is a row of the table with the given [group_id] and
      [artifact_id] and a [version_seq] above [n];
    - no two have the same [artifact_version];
    - none of the rows the [WHERE] clause keeps for that version has a
      later [last_modified];
    - they come by ascending [version_seq];
    - there are at most [limit] of them. *)
Theorem newer_versions_query g a n limit t :
  fits_int64 n = true ->
  fits_int64 limit = true ->
  0 <= limit ->
  exists reps,
    run_statement SQL_GAV_UPGRADE
      [PyStr g; PyStr a; PyInt n; PyInt limit] t
    = inr (map upgrade_columns reps)
    /\ Forall (fun r => In r t
                        /\ ModelGAV.group_id r = g
                        /\ ModelGAV.artifact_id r = a
                        /\ n < ModelGAV.version_seq r) reps
    /\ NoDup (map ModelGAV.artifact_version reps)
    /\ Forall (fun r => forall x,
                 In x t -> where_upgrade g a n x = true ->
                 ModelGAV.artifact_version x = ModelGAV.artifact_version r ->
                 text_le (ModelGAV.last_modified x) (ModelGAV.last_modified r))
              reps
    /\ StronglySorted seq_le reps
    /\ Z.of_nat (List.length reps) <= limit.
Proof.
  intros Hn Hlimit Hpos.
  exists (newer_versions g a n limit t).
  split.
  { cbn [run_statement]. unfold bind_int. rewrite Hn, Hlimit. reflexivity. }
  rewrite newer_versions_limit.
  assert (Hin : forall r, In r (sqlite_limit limit (upgrade_groups g a n t)) ->
                In r (group_by_artifact_version
                        (filter (where_upgrade g a n) t))).
  { intros r Hr. apply upgrade_groups_in. eapply sqlite_limit_incl, Hr. }
  split; [|split; [|split; [|split]]].
  - apply Forall_forall. intros r Hr.
    apply Hin, group_by_in, filter_In in Hr. destruct Hr as [Ht Hw].
    apply where_upgrade_true in Hw. tauto.
  - rewrite <- sqlite_limit_map.
    apply sqlite_limit_NoDup, upgrade_groups_NoDup.
  - apply Forall_forall. intros r Hr x Hx Hw Hv.
    eapply group_by_newest; [apply Hin, Hr| |exact Hv].
    apply filter_In. now split.
  - apply sqlite_limit_sorted, order_by_version_seq_sorted.
  - now apply sqlite_limit_length.
Qed.

Lemma newer_versions_query_witness :
  fits_int64 5 = true /\ fits_int64 1 = true /\ 0 <= 1
  /\ run_statement SQL_GAV_UPGRADE
       [PyStr "com.example"; PyStr "example"; PyInt 5; PyInt 1] dataset
     = inr [ [PyStr "2.0"; PyStr "2024-01-01"] ]
  /\ exists reps,
       run_statement SQL_GAV_UPGRADE
         [PyStr "com.example"; PyStr "example"; PyInt 5; PyInt 1] dataset
       = inr (map upgrade_columns reps)
       /\ Z.of_nat (List.length reps) <= 1.
Proof.
  split; [reflexivity|]. split; [reflexivity|]. split; [discriminate|].
  split; [reflexivity|].
  destruct (newer_versions_query "com.example" "example" 5 1 dataset
              eq_refl eq_refl)
    as (reps & Hrun & _ & _ & _ & _ & Hlen); [discriminate|].
  exists reps. split; assumption.
Defined.

(* ================================================================== *)
(** * Lookups by file name and by coordinates *)

Lemma filter_not_empty {A} (p : A -> bool) l x :
  In x l -> p x = true -> filter p l <> [].
Proof.
  intros Hx Hp Hnil.
  assert (H : In x (filter p l)) by (apply filter_In; now split).
  now rewrite Hnil in H.
Qed.

Lemma filter_head {A} (p : A -> bool) l x rest :
  filter p l = x :: rest -> In x l /\ p x = true.
Proof.
  intros H. apply filter_In. rewrite H. now left.
Qed.

Lemma where_gav_true g a v r :
  where_gav g a v r = true <->
  ModelGAV.group_id r = g /\ ModelGAV.artifact_id r = a
  /\ ModelGAV.artifact_version r = v.
Proof.
  unfold where_gav. rewrite !andb_true_iff, !String.eqb_eq. tauto.
Qed.

(** C6.  For every [file_name] that a row of the table carries, the
    ByFileName statement returns exactly one record, a row of the table whose
    [file_name] is the one asked for; and [GET /api/file/{file_name}], once
    the request is admitted (the name has at most 512 characters) and the
    database is opened, answers 200 with that one record. *)
Theorem file_lookup_returns_the_record r w :
  In r (db_rows w) ->
  exists item,
    run_statement SQL_GAV_SELECT_FILE_NAME [PyStr (ModelGAV.file_name r)]
      (db_rows w) = inr [select_gav item]
    /\ ModelGAV.file_name item = ModelGAV.file_name r
    /\ In item (db_rows w)
    /\ (db_available w = true ->
        (String.length (ModelGAV.file_name r) <= MAXLEN_FILE_NAME)%nat ->
        fst (app (GET_api_file (ModelGAV.file_name r)) w)
        = Response 200 (Item item)).
Proof.
  intros Hr.
  destruct (filter (where_file_name (ModelGAV.file_name r)) (db_rows w))
    as [|item rest] eqn:Hf.
  { exfalso. eapply filter_not_empty; [exact Hr| |exact Hf].
    apply String.eqb_refl. }
  exists item.
  destruct (filter_head _ _ _ _ Hf) as [Hin Hw].
  apply String.eqb_eq in Hw.
  split; [|split; [exact Hw|split; [exact Hin|]]].
  - cbn [run_statement]. unfold select_file_name.
    now rewrite sqlite_limit_map, sqlite_limit_1, Hf.
  - intros Hup Hlen. apply Nat.leb_le in Hlen.
    run_handler. now rewrite Hlen, Hup, Hf.
Qed.

Lemma file_lookup_returns_the_record_witness :
  In example_2_0 dataset
  /\ db_available (started dataset) = true
  /\ (String.length (ModelGAV.file_name example_2_0) <= MAXLEN_FILE_NAME)%nat
  /\ exists item,
       run_statement SQL_GAV_SELECT_FILE_NAME [PyStr "example-2.0.jar"] dataset
       = inr [select_gav item]
       /\ ModelGAV.file_name item = "example-2.0.jar"
       /\ fst (app (GET_api_file "example-2.0.jar") (started dataset))
          = Response 200 (Item item).
Proof.
  split; [right; now left|]. split; [reflexivity|].
  split; [apply Nat.leb_le; reflexivity|].
  destruct (file_lookup_returns_the_record example_2_0 (started dataset))
    as (item & Hrun & Hname & _ & Hresp); [right; now left|].
  exists item. split; [exact Hrun|]. split; [exact Hname|].
  apply Hresp; [reflexivity|apply Nat.leb_le; reflexivity].
Defined.

(** The lookup follows [LIKE], not "starts with": for [a_b.jar] the [_] of
    the stem also matches the [x] of [axb.jar], whose [last_modified] is the
    one returned. *)
Lemma last_modified_lookup_follows_LIKE :
  fst (splitext "a_b.jar") = "a_b"
  /\ fst (app (GET_api_filelastmodified "a_b.jar") (started [a_b; axb]))
     = Response 200 (LastModified (ModelLastModified.Build "2025-01-01"))
  /\ max_last_modified_starting_with "a_b" [a_b; axb] = PyStr "2020-01-01".
Proof. repeat split. Qed.

(** C7 (amended).  For a name whose stem is not empty and whose pattern
    [stem%] at least one row matches, the lookup returns the maximal
    [last_modified] over exactly the rows whose [file_name] matches
    [LIKE stem%]: it is the value of one of them and none of them has a later
    one.  The rows whose [file_name] starts with the stem are among them. *)
Theorem last_modified_lookup file_name w :
  (String.length file_name <= MAXLEN_FILE_NAME)%nat ->
  fst (splitext file_name) <> "" ->
  db_available w = true ->
  (exists r, In r (db_rows w)
             /\ where_file_name_like (fst (splitext file_name) ++ "%") r
                = true) ->
  exists latest,
    fst (app (GET_api_filelastmodified file_name) w)
    = Response 200 (LastModified (ModelLastModified.Build latest))
    /\ (exists r, In r (db_rows w)
                  /\ where_file_name_like (fst (splitext file_name) ++ "%") r
                     = true
                  /\ ModelGAV.last_modified r = latest)
    /\ (forall r, In r (db_rows w) ->
          where_file_name_like (fst (splitext file_name) ++ "%") r = true ->
          text_le (ModelGAV.last_modified r) latest)
    /\ (forall r, In r (db_rows w) ->
          String.prefix (fst (splitext file_name)) (ModelGAV.file_name r)
          = true ->
          where_file_name_like (fst (splitext file_name) ++ "%") r = true).
Proof.
  intros Hlen Hstem Hup (r0 & Hr0 & Hlike0). apply Nat.leb_le in Hlen.
  run_handler. rewrite Hlen, (stem_not_empty _ Hstem), Hup.
  set (pattern := fst (splitext file_name) ++ "%") in *.
  destruct (filter (where_file_name_like pattern) (db_rows w))
    as [|m ms] eqn:Hf.
  { exfalso. eapply filter_not_empty; [exact Hr0|exact Hlike0|exact Hf]. }
  cbn [map sql_max fst].
  exists (fold_left text_max (map ModelGAV.last_modified ms)
                    (ModelGAV.last_modified m)).
  split; [reflexivity|]. split; [|split].
  - pose proof (fold_text_max_in (map ModelGAV.last_modified ms)
                  (ModelGAV.last_modified m)) as Hin.
    change (ModelGAV.last_modified m :: map ModelGAV.last_modified ms)
      with (map ModelGAV.last_modified (m :: ms)) in Hin.
    apply in_map_iff in Hin. destruct Hin as (r & Hlm & Hr).
    rewrite <- Hf in Hr. apply filter_In in Hr. destruct Hr as [Hr Hlike].
    exists r. repeat split; assumption.
  - intros r Hr Hlike. apply fold_text_max_ge.
    change (ModelGAV.last_modified m :: map ModelGAV.last_modified ms)
      with (map ModelGAV.last_modified (m :: ms)).
    apply in_map. rewrite <- Hf. apply filter_In. now split.
  - intros r _ Hprefix. now apply prefix_sqlite_like.
Qed.

Lemma last_modified_lookup_witness :
  (String.length "example-1.0.jar" <= MAXLEN_FILE_NAME)%nat
  /\ fst (splitext "example-1.0.jar") = "example-1.0"
  /\ db_available (started dataset) = true
  /\ where_file_name_like "example-1.0%" example_1_0 = true
  /\ exists latest,
       fst (app (GET_api_filelastmodified "example-1.0.jar") (started dataset))
       = Response 200 (LastModified (ModelLastModified.Build latest))
       /\ latest = "2023-01-01".
Proof.
  split; [apply Nat.leb_le; reflexivity|]. split; [reflexivity|].
  split; [reflexivity|]. split; [reflexivity|].
  destruct (last_modified_lookup "example-1.0.jar" (started dataset))
    as (latest & Hresp & _).
  - apply Nat.leb_le; reflexivity.
  - discriminate.
  - reflexivity.
  - exists example_1_0. split; [now left|reflexivity].
  - exists latest. split; [exact Hresp|].
    change (Response 200
              (LastModified (ModelLastModified.Build "2023-01-01"))
            = Response 200 (LastModified (ModelLastModified.Build latest)))
      in Hresp.
    now injection Hresp.
Defined.

(** C8.  For every triple of coordinates that a row of the table
    carries, the ByGAV statement returns at least one and at most 100 records,
    each a row of the table with exactly these three coordinates; and
    [GET /api/gav/{group_id}/{artifact_id}/{artifact_version}], once the
    request is admitted (segments within 254, 254 and 128 characters) and the
    database is opened, answers 200 with these records. *)
Theorem gav_lookup_returns_matching_records r w :
  In r (db_rows w) ->
  exists items,
    run_statement SQL_GAV_SELECT_GAV
      [PyStr (ModelGAV.group_id r); PyStr (ModelGAV.artifact_id r);
       PyStr (ModelGAV.artifact_version r)] (db_rows w)
    = inr (map select_gav items)
    /\ (1 <= List.length items)%nat
    /\ Z.of_nat (List.length items) <= 100
    /\ Forall (fun item =>
                 In item (db_rows w)
                 /\ ModelGAV.group_id item = ModelGAV.group_id r
                 /\ ModelGAV.artifact_id item = ModelGAV.artifact_id r
                 /\ ModelGAV.artifact_version item
                    = ModelGAV.artifact_version r) items
    /\ (db_available w = true ->
        (String.length (ModelGAV.group_id r) <= MAXLEN_GROUP_ID)%nat ->
        (String.length (ModelGAV.artifact_id r) <= MAXLEN_ARTIFACT_ID)%nat ->
        (String.length (ModelGAV.artifact_version r)
         <= MAXLEN_ARTIFACT_VERSION)%nat ->
        fst (app (GET_api_gav_path (ModelGAV.group_id r)
                    (ModelGAV.artifact_id r) (ModelGAV.artifact_version r)) w)
        = Response 200 (Items items)).
Proof.
  intros Hr.
  set (g := ModelGAV.group_id r) in *.
  set (a := ModelGAV.artifact_id r) in *.
  set (v := ModelGAV.artifact_version r) in *.
  pose proof (sqlite_limit_length PAGE_SIZE
                (filter (where_gav g a v) (db_rows w))) as Hlen.
  pose proof (sqlite_limit_incl PAGE_SIZE
                (filter (where_gav g a v) (db_rows w))) as Hincl.
  destruct (sqlite_limit PAGE_SIZE (filter (where_gav g a v) (db_rows w)))
    as [|item rest] eqn:Hl.
  { exfalso. rewrite sqlite_limit_PAGE_SIZE_head in Hl.
    destruct (filter (where_gav g a v) (db_rows w)) eqn:Hf; [|discriminate].
    eapply filter_not_empty; [exact Hr| |exact Hf].
    apply where_gav_true. repeat split. }
  exists (item :: rest).
  split; [|split; [|split; [|split]]].
  - cbn [run_statement]. unfold select_gav_rows.
    now rewrite sqlite_limit_map, Hl.
  - cbn; lia.
  - apply Hlen; unfold PAGE_SIZE; lia.
  - apply Forall_forall. intros x Hx.
    apply Hincl, filter_In in Hx. destruct Hx as [Hx Hw].
    apply where_gav_true in Hw. tauto.
  - intros Hup Hg Ha Hv. apply Nat.leb_le in Hg, Ha, Hv.
    run_handler. now rewrite Hg, Ha, Hv, Hup, Hl.
Qed.

Lemma gav_lookup_returns_matching_records_witness :
  In example_1_0 dataset
  /\ db_available (started dataset) = true
  /\ (String.length "com.example" <= MAXLEN_GROUP_ID)%nat
  /\ (String.length "example" <= MAXLEN_ARTIFACT_ID)%nat
  /\ (String.length "1.0" <= MAXLEN_ARTIFACT_VERSION)%nat
  /\ exists items,
       run_statement SQL_GAV_SELECT_GAV
         [PyStr "com.example"; PyStr "example"; PyStr "1.0"] dataset
       = inr (map select_gav items)
       /\ (1 <= List.length items)%nat
       /\ Z.of_nat (List.length items) <= 100
       /\ fst (app (GET_api_gav_path "com.example" "example" "1.0")
                   (started dataset)) = Response 200 (Items items).
Proof.
  split; [now left|]. split; [reflexivity|].
  split; [apply Nat.leb_le; reflexivity|].
  split; [apply Nat.leb_le; reflexivity|].
  split; [apply Nat.leb_le; reflexivity|].
  destruct (gav_lookup_returns_matching_records example_1_0
              (started dataset))
    as (items & Hrun & Hmin & Hmax & _ & Hresp); [now left|].
  exists items. split; [exact Hrun|]. split; [exact Hmin|].
  split; [exact Hmax|].
  apply Hresp; [reflexivity| | |]; apply Nat.leb_le; reflexivity.
Defined.

(* ================================================================== *)
(** * The upgrade endpoints *)

Lemma select_gav_inj a b : select_gav a = select_gav b -> a = b.
Proof.
  intros H. apply (f_equal gav2item) in H.
  rewrite !gav2item_select_gav in H. now injection H.
Qed.

Lemma select_file_name_empty file_name t :
  run_statement SQL_GAV_SELECT_FILE_NAME [PyStr file_name] t = inr [] ->
  filter (where_file_name file_name) t = [].
Proof.
  cbn [run_statement]. unfold select_file_name.
  rewrite sqlite_limit_map, sqlite_limit_1.
  destruct (filter (where_file_name file_name) t); [reflexivity|discriminate].
Qed.

Lemma select_file_name_found file_name t base rest :
  run_statement SQL_GAV_SELECT_FILE_NAME [PyStr file_name] t
  = inr (select_gav base :: rest) ->
  exists more, filter (where_file_name file_name) t = base :: more.
Proof.
  cbn [run_statement]. unfold select_file_name.
  rewrite sqlite_limit_map, sqlite_limit_1.
  destruct (filter (where_file_name file_name) t) as [|x more];
    [discriminate|].
  cbn [map]. intros H.
  apply (f_equal (fun rows => hd [] match rows with
                                    | inl _ => []
                                    | inr rows => rows
                                    end)) in H.
  cbn [hd] in H. apply select_gav_inj in H. subst. now exists more.
Qed.

Lemma select_gav_rows_empty g a v t :
  run_statement SQL_GAV_SELECT_GAV [PyStr g; PyStr a; PyStr v] t = inr [] ->
  filter (where_gav g a v) t = [].
Proof.
  cbn [run_statement]. unfold select_gav_rows.
  rewrite sqlite_limit_map, sqlite_limit_PAGE_SIZE_head.
  destruct (filter (where_gav g a v) t); [reflexivity|discriminate].
Qed.

Lemma select_gav_rows_found g a v t base rest :
  run_statement SQL_GAV_SELECT_GAV [PyStr g; PyStr a; PyStr v] t
  = inr (select_gav base :: rest) ->
  exists more, filter (where_gav g a v) t = base :: more.
Proof.
  cbn [run_statement]. unfold select_gav_rows.
  rewrite sqlite_limit_map, sqlite_limit_PAGE_SIZE_head.
  destruct (filter (where_gav g a v) t) as [|x more]; [discriminate|].
  cbn [map]. intros H.
  apply (f_equal (fun rows => hd [] match rows with
                                    | inl _ => []
                                    | inr rows => rows
                                    end)) in H.
  cbn [hd] in H. apply select_gav_inj in H. subst. now exists more.
Qed.

Lemma select_upgrade_empty g a n limit t :
  run_statement SQL_GAV_UPGRADE [PyStr g; PyStr a; PyInt n; PyInt limit] t
  = inr [] ->
  fits_int64 n = true /\ fits_int64 limit = true
  /\ newer_versions g a n limit t = [].
Proof.
  cbn [run_statement]. unfold bind_int, select_upgrade.
  destruct (fits_int64 n); [|discriminate].
  destruct (fits_int64 limit); [|discriminate].
  cbn [rbind]. intros H.
  destruct (newer_versions g a n limit t); [auto|discriminate].
Qed.

(** C9.  With the database available and the parameters within the
    bounds of the route, both upgrade endpoints answer 404 when the lookup of
    the base record returns no row, and 204 when it returns a row [base] and
    the newer-versions statement, run for the [group_id], [artifact_id] and
    [version_seq] of [base], returns no row. *)
Theorem upgrade_404_and_204 w limit :
  db_available w = true ->
  default PAGE_SIZE_BIG limit <= PAGE_SIZE_BIG ->
  (forall file_name,
     (String.length file_name <= MAXLEN_FILE_NAME)%nat ->
     (run_statement SQL_GAV_SELECT_FILE_NAME [PyStr file_name] (db_rows w)
      = inr [] ->
      status (fst (app (GET_api_fileupgrade file_name limit) w)) = 404)
     /\ (forall base rest,
           run_statement SQL_GAV_SELECT_FILE_NAME [PyStr file_name] (db_rows w)
           = inr (select_gav base :: rest) ->
           run_statement SQL_GAV_UPGRADE
             [PyStr (ModelGAV.group_id base); PyStr (ModelGAV.artifact_id base);
              PyInt (ModelGAV.version_seq base);
              PyInt (default PAGE_SIZE_BIG limit)] (db_rows w)
           = inr [] ->
           status (fst (app (GET_api_fileupgrade file_name limit) w)) = 204))
  /\ (forall g a v,
        (String.length g <= MAXLEN_GROUP_ID)%nat ->
        (String.length a <= MAXLEN_ARTIFACT_ID)%nat ->
        (String.length v <= MAXLEN_ARTIFACT_VERSION)%nat ->
        (run_statement SQL_GAV_SELECT_GAV [PyStr g; PyStr a; PyStr v] (db_rows w)
         = inr [] ->
         status (fst (app (GET_api_gavupgrade g a v limit) w)) = 404)
        /\ (forall base rest,
              run_statement SQL_GAV_SELECT_GAV [PyStr g; PyStr a; PyStr v]
                (db_rows w)
              = inr (select_gav base :: rest) ->
              run_statement SQL_GAV_UPGRADE
                [PyStr (ModelGAV.group_id base);
                 PyStr (ModelGAV.artifact_id base);
                 PyInt (ModelGAV.version_seq base);
                 PyInt (default PAGE_SIZE_BIG limit)] (db_rows w)
              = inr [] ->
              status (fst (app (GET_api_gavupgrade g a v limit) w)) = 204)).
Proof.
  intros Hup Hlimit. apply Z.leb_le in Hlimit.
  split.
  - intros file_name Hlen. apply Nat.leb_le in Hlen.
    split.
    + intros Habsent. apply select_file_name_empty in Habsent.
      run_handler. now rewrite Hlen, Hlimit, Hup, Habsent.
    + intros base rest Hbase Hnone.
      apply select_file_name_found in Hbase. destruct Hbase as [more Hbase].
      apply select_upgrade_empty in Hnone.
      destruct Hnone as (Hn & Hl & Hnone).
      run_handler.
      now rewrite Hlen, Hlimit, Hup, Hbase, Hn, Hl, Hnone.
  - intros g a v Hg Ha Hv. apply Nat.leb_le in Hg, Ha, Hv.
    split.
    + intros Habsent. apply select_gav_rows_empty in Habsent.
      run_handler. now rewrite Hg, Ha, Hv, Hlimit, Hup, Habsent.
    + intros base rest Hbase Hnone.
      apply select_gav_rows_found in Hbase. destruct Hbase as [more Hbase].
      apply select_upgrade_empty in Hnone.
      destruct Hnone as (Hn & Hl & Hnone).
      run_handler.
      now rewrite Hg, Ha, Hv, Hlimit, Hup, Hbase, Hn, Hl, Hnone.
Qed.

Lemma upgrade_404_and_204_witness :
  db_available (started dataset) = true
  /\ default PAGE_SIZE_BIG None <= PAGE_SIZE_BIG
  /\ status (fst (app (GET_api_fileupgrade "missing.jar" None)
                      (started dataset))) = 404
  /\ status (fst (app (GET_api_fileupgrade "example-3.0.jar" None)
                      (started dataset))) = 204
  /\ status (fst (app (GET_api_gavupgrade "com.example" "example" "0.9" None)
                      (started dataset))) = 404
  /\ status (fst (app (GET_api_gavupgrade "com.example" "example" "3.0" None)
                      (started dataset))) = 204.
Proof.
  split; [reflexivity|]. split; [discriminate|].
  destruct (upgrade_404_and_204 (started dataset) None eq_refl)
    as [Hfile Hgav]; [discriminate|].
  split; [|split; [|split]].
  - apply (Hfile "missing.jar"); [apply Nat.leb_le|]; reflexivity.
  - apply (Hfile "example-3.0.jar") with (base := example_3_0) (rest := []);
      [apply Nat.leb_le| |]; reflexivity.
  - apply (Hgav "com.example" "example" "0.9");
      [apply Nat.leb_le|apply Nat.leb_le|apply Nat.leb_le|]; reflexivity.
  - apply (Hgav "com.example" "example" "3.0")
      with (base := example_3_0) (rest := []);
      [apply Nat.leb_le|apply Nat.leb_le|apply Nat.leb_le| |]; reflexivity.
Defined.

(* ================================================================== *)
(** * Responses depend on the database only *)

(** A handler reads the database and leaves it as it is. *)
Lemma app_reads_only req w :
  db_available (snd (app req w)) = db_available w
  /\ db_rows (snd (app req w)) = db_rows w.
Proof.
  destruct w as [up rows next open].
  destruct req; run_handler; unfold opened, released;
    cbn [db_available db_rows next_connection open_connections
         connection_close snd];
    split_outcome; split; reflexivity.
Qed.

(** The response is a function of the database: the connections that are
    open, and the handle the next one gets, play no part. *)
Lemma app_db_only req w1 w2 :
  db_available w1 = db_available w2 ->
  db_rows w1 = db_rows w2 ->
  fst (app req w1) = fst (app req w2).
Proof.
  intros Hup Hrows.
  destruct req; run_handler; rewrite ?Hup, ?Hrows; split_outcome;
    reflexivity.
Qed.

Lemma serve_all_reads_only reqs w :
  db_available (serve_all reqs w) = db_available w
  /\ db_rows (serve_all reqs w) = db_rows w.
Proof.
  revert w; induction reqs as [|req reqs IH]; intros w; cbn [serve_all].
  - split; reflexivity.
  - destruct (IH (snd (app req w))) as [-> ->]. apply app_reads_only.
Qed.

(** C10.  The response to a request is the same whatever requests were
    served before it, the same request among them: the only state a handler
    changes, the connections of the process, does not reach any response. *)
Theorem app_deterministic req history w :
  fst (app req (serve_all history w)) = fst (app req w).
Proof.
  destruct (serve_all_reads_only history w) as [Hup Hrows].
  now apply app_db_only.
Qed.

(* ================================================================== *)
(** * Further properties: parameters and the database file *)

Lemma rfind_from_ge c s i found :
  -1 <= found -> 0 <= i -> -1 <= rfind_from c s i found.
Proof.
  revert i found; induction s as [|d s IH]; intros i found Hf Hi;
    cbn [rfind_from]; [exact Hf|].
  apply IH; [destruct (Ascii.eqb d c)|]; lia.
Qed.

(** The stem [splitext] returns is empty for the empty name only. *)
Lemma splitext_stem_empty p : fst (splitext p) = "" <-> p = "".
Proof.
  split; [|now intros ->].
  destruct p as [|c p]; [reflexivity|].
  unfold splitext.
  pose proof (rfind_from_ge "/" (String c p) 0 (-1)) as Hsep.
  fold (rfind (String c p) "/") in Hsep.
  set (sepIndex := rfind (String c p) "/") in *.
  set (dotIndex := rfind (String c p) ".") in *.
  destruct (sepIndex <? dotIndex) eqn:Hlt; cbn [andb fst]; [|discriminate].
  destruct (Z.to_nat (dotIndex - (sepIndex + 1))) as [|steps] eqn:Hsteps;
    [cbn [has_name_before_dot fst]; discriminate|].
  destruct (has_name_before_dot _ _ _); cbn [fst]; [|discriminate].
  destruct (Z.to_nat dotIndex) as [|n] eqn:Hdot; [lia|].
  cbn [substring]. discriminate.
Qed.

Lemma stem_length p :
  Nat.ltb (String.length (fst (splitext p))) 1
  = match p with EmptyString => true | String _ _ => false end.
Proof.
  destruct p as [|c p]; [reflexivity|].
  apply stem_not_empty. intros H.
  apply (proj1 (splitext_stem_empty _)) in H. discriminate H.
Qed.

(** X1.  A request that matches its route and whose integers are read
    is answered 422 exactly when one of its parameters is out of the bound
    its handler declares, whatever the state of the database; and then the
    handler has opened no connection. *)
Theorem refused_iff_out_of_bounds req w :
  routable req = true ->
  integers_parse req = true ->
  (status (fst (app req w)) = 422 <-> admitted req = false)
  /\ (admitted req = false -> snd (app req w) = w).
Proof.
  intros _ _.
  destruct req; run_handler; cbn [admitted];
    repeat match goal with
    | |- context [Nat.leb ?a ?b] => destruct (Nat.leb a b)
    | |- context [?a <=? ?b] => destruct (a <=? b)
    end; cbn [andb];
    try (split; [split; [reflexivity|reflexivity]|reflexivity]);
    (split; [|discriminate]); split; try discriminate;
    split_outcome; cbn [fst status error_response unavailable]; discriminate.
Qed.



(** X3.  [GET /api/filelastmodified/{file_name}] answers 400 for no name
    that is not empty, hence for no name its route can deliver: [splitext]
    leaves a stem that is not empty to every such name, a name made of an
    extension alone included, and the test of the stem never fails. *)
Theorem filelastmodified_never_400 file_name w :
  file_name <> "" ->
  status (fst (app (GET_api_filelastmodified file_name) w)) <> 400.
Proof.
  intros Hname. run_handler. rewrite stem_length.
  destruct file_name as [|c file_name]; [congruence|].
  split_outcome; cbn [fst status error_response unavailable]; discriminate.
Qed.

Lemma filelastmodified_never_400_witness :
  ".jar" <> ""
  /\ fst (splitext ".jar") = ".jar"
  /\ status (fst (app (GET_api_filelastmodified ".jar") (started dataset)))
     <> 400.
Proof.
  split; [discriminate|]. split; [reflexivity|].
  apply (filelastmodified_never_400 ".jar" (started dataset)).
  discriminate.
Defined.

(** X4.  The extension plays no part in the last-modified lookup: two
    names with the same stem (not empty) get the same response. *)
Theorem filelastmodified_ignores_extension f1 f2 w :
  (String.length f1 <= MAXLEN_FILE_NAME)%nat ->
  (String.length f2 <= MAXLEN_FILE_NAME)%nat ->
  fst (splitext f1) = fst (splitext f2) ->
  fst (splitext f1) <> "" ->
  fst (app (GET_api_filelastmodified f1) w)
  = fst (app (GET_api_filelastmodified f2) w).
Proof.
  intros H1 H2 Hstem Hne. apply Nat.leb_le in H1, H2.
  run_handler. rewrite <- Hstem, H1, H2, (stem_not_empty _ Hne).
  reflexivity.
Qed.

Lemma filelastmodified_ignores_extension_witness :
  (String.length "example-1.0.jar" <= MAXLEN_FILE_NAME)%nat
  /\ (String.length "example-1.0.pom" <= MAXLEN_FILE_NAME)%nat
  /\ fst (splitext "example-1.0.jar") = fst (splitext "example-1.0.pom")
  /\ fst (splitext "example-1.0.jar") <> ""
  /\ fst (app (GET_api_filelastmodified "example-1.0.jar") (started dataset))
     = fst (app (GET_api_filelastmodified "example-1.0.pom") (started dataset)).
Proof.
  split; [apply Nat.leb_le; reflexivity|].
  split; [apply Nat.leb_le; reflexivity|].
  split; [reflexivity|]. split; [discriminate|].
  apply (filelastmodified_ignores_extension
           "example-1.0.jar" "example-1.0.pom" (started dataset));
    [apply Nat.leb_le; reflexivity|apply Nat.leb_le; reflexivity
    |reflexivity|discriminate].
Defined.

Lemma refused_iff_out_of_bounds_witness :
  routable (GET_api_gav None (Some 101)) = true
  /\ integers_parse (GET_api_gav None (Some 101)) = true
  /\ admitted (GET_api_gav None (Some 101)) = false
  /\ status (fst (app (GET_api_gav None (Some 101))
                      (World false dataset 0%nat []))) = 422
  /\ snd (app (GET_api_gav None (Some 101)) (started dataset))
     = started dataset.
Proof.
  split; [reflexivity|]. split; [reflexivity|]. split; [reflexivity|].
  split.
  - apply (proj1 (refused_iff_out_of_bounds (GET_api_gav None (Some 101))
                    (World false dataset 0%nat []) eq_refl eq_refl)).
    reflexivity.
  - apply (proj2 (refused_iff_out_of_bounds (GET_api_gav None (Some 101))
                    (started dataset) eq_refl eq_refl)).
    reflexivity.
Defined.

(* ================================================================== *)
(** * Further properties: the row mapper *)

Ltac next_element r :=
  destruct r as [|? r]; [try discriminate; try reflexivity|].

Ltac first_sixteen r := do 16 (next_element r).

(** X5.  [gav2item] assigns by position and looks at the first sixteen
    elements only: a tuple that starts with the sixteen columns of a record,
    in the order of [SQL_SELECT_GAV], is mapped to that record whatever
    follows them; and a tuple whose first sixteen elements have the Python
    types of the columns is mapped to the record that holds exactly these
    elements, each in the field of its position. *)
Theorem gav2item_positional r :
  (forall item, firstn 16 r = select_gav item -> gav2item r = inr item)
  /\ (column_types_match r = true ->
      exists item, gav2item r = inr item /\ firstn 16 r = select_gav item).
Proof.
  split.
  - intros item H. first_sixteen r.
    cbn [firstn] in H. destruct item. cbn [select_gav] in H.
    injection H as -> -> -> -> -> -> -> -> -> -> -> -> -> -> -> ->.
    reflexivity.
  - intros H. unfold column_types_match in H.
    do 16 (destruct r as [|[| |] r]; try discriminate H).
    eexists (ModelGAV.Build _ _ _ _ _ _ _ _ _ _ _ _ _ _ _ _).
    split; reflexivity.
Qed.

Lemma gav2item_positional_witness :
  column_types_match (select_gav example_1_0 ++ [PyNone; PyInt 7])%list = true
  /\ gav2item (select_gav example_1_0 ++ [PyNone; PyInt 7])%list
     = inr example_1_0
  /\ exists item,
       gav2item (select_gav example_1_0 ++ [PyNone; PyInt 7])%list = inr item
       /\ firstn 16 (select_gav example_1_0 ++ [PyNone; PyInt 7])%list
          = select_gav item.
Proof.
  split; [reflexivity|].
  split.
  - apply (proj1 (gav2item_positional
                    (select_gav example_1_0 ++ [PyNone; PyInt 7])%list)).
    reflexivity.
  - apply (proj2 (gav2item_positional
                    (select_gav example_1_0 ++ [PyNone; PyInt 7])%list)).
    reflexivity.
Defined.

(** X6.  [gav2item] raises [IndexError] exactly on the tuples with fewer
    than sixteen elements; on any longer tuple a failure is a
    [ValidationError] of the model. *)
Theorem gav2item_IndexError_iff_short r :
  gav2item r = inl IndexError <-> (List.length r < 16)%nat.
Proof.
  split.
  - intros H.
    do 16 (destruct r as [|? r]; [cbn [List.length]; lia|]).
    exfalso.
    unfold gav2item in H; cbn [index nth_error rbind] in H.
    repeat match type of H with
    | context [str_field ?v] =>
        destruct v; cbn [str_field rbind] in H; try discriminate H
    | context [int_field ?v] =>
        destruct v; cbn [int_field rbind] in H; try discriminate H
    end.
  - intros H.
    do 16 (destruct r as [|? r]; [reflexivity|]).
    cbn [List.length] in H. lia.
Qed.

(* ================================================================== *)
(** * Further properties: the pages of GET /api/gav *)

Lemma fits_int64_iff z :
  fits_int64 z = true
  <-> -9223372036854775808 <= z < 9223372036854775808.
Proof.
  unfold fits_int64. rewrite andb_true_iff, Z.leb_le, Z.ltb_lt.
  change (2 ^ 63) with 9223372036854775808. lia.
Qed.

Lemma firstn_add {A} a b (l : list A) :
  firstn (a + b) l = (firstn a l ++ firstn b (skipn a l))%list.
Proof.
  revert l; induction a as [|a IH]; intros l; [reflexivity|].
  destruct l as [|x l]; cbn [Nat.add firstn skipn app].
  - now rewrite firstn_nil.
  - now rewrite IH.
Qed.

Lemma window_nonneg {A} skip limit (l : list A) :
  0 <= skip -> 0 <= limit ->
  sqlite_limit limit (sqlite_offset skip l)
  = firstn (Z.to_nat limit) (skipn (Z.to_nat skip) l).
Proof.
  intros Hs Hl. unfold sqlite_limit, sqlite_offset.
  destruct (Z.ltb_spec limit 0); [lia|].
  destruct (Z.ltb_spec skip 0); [lia|]. reflexivity.
Qed.

(** What a page holds: the records of the window, and none when the
    window is empty and the handler answers 404. *)
Lemma gav_page_items skip limit w :
  db_available w = true ->
  0 <= skip -> 0 <= limit <= PAGE_SIZE ->
  fits_int64 skip = true ->
  page_items (fst (gav skip limit w))
  = firstn (Z.to_nat limit) (skipn (Z.to_nat skip) (db_rows w)).
Proof.
  intros Hup Hskip [Hl0 Hl] Hfits.
  assert (Hfl : fits_int64 limit = true)
    by (apply fits_int64_iff; unfold PAGE_SIZE in Hl; lia).
  rewrite gav_run, Hup, Hfl, Hfits.
  replace (limit <=? PAGE_SIZE) with true by (symmetry; now apply Z.leb_le).
  rewrite (window_nonneg _ _ _ Hskip Hl0).
  now destruct (firstn _ _).
Qed.

(** X7.  With [skip >= 0] and [0 < limit <= 100], [GET /api/gav] answers
    404 exactly when [skip] is at or past the end of the table (an empty
    table included), and 200 otherwise. *)
Theorem gav_404_iff_past_the_end skip limit w :
  db_available w = true ->
  0 <= skip -> 0 < limit <= PAGE_SIZE ->
  fits_int64 skip = true ->
  (status (fst (app (GET_api_gav (Some skip) (Some limit)) w)) = 404
   <-> Z.of_nat (List.length (db_rows w)) <= skip)
  /\ (status (fst (app (GET_api_gav (Some skip) (Some limit)) w)) = 200
      <-> skip < Z.of_nat (List.length (db_rows w))).
Proof.
  intros Hup Hskip [Hl0 Hl] Hfits.
  assert (Hfl : fits_int64 limit = true)
    by (apply fits_int64_iff; unfold PAGE_SIZE in Hl; lia).
  run_handler. cbn [default]. rewrite Hup, Hfl, Hfits.
  replace (limit <=? PAGE_SIZE) with true by (symmetry; now apply Z.leb_le).
  rewrite (window_nonneg _ _ _ Hskip (Z.lt_le_incl _ _ Hl0)).
  pose proof (length_firstn (Z.to_nat limit)
                (skipn (Z.to_nat skip) (db_rows w))) as Hlen.
  rewrite length_skipn in Hlen.
  destruct (firstn _ _) as [|r rest]; cbn [List.length] in Hlen;
    cbn [fst status error_response].
  - split; split; intros H; try reflexivity; try discriminate H; lia.
  - split; split; intros H; try reflexivity; try discriminate H; lia.
Qed.

Lemma gav_404_iff_past_the_end_witness :
  db_available (started dataset) = true
  /\ 0 <= 3 /\ 0 < 2 <= PAGE_SIZE /\ fits_int64 3 = true
  /\ Z.of_nat (List.length dataset) <= 3
  /\ status (fst (app (GET_api_gav (Some 3) (Some 2)) (started dataset)))
     = 404.
Proof.
  split; [reflexivity|]. split; [discriminate|].
  split; [split; [reflexivity|discriminate]|]. split; [reflexivity|].
  split; [discriminate|].
  apply (gav_404_iff_past_the_end 3 2 (started dataset)).
  - reflexivity.
  - discriminate.
  - split; [reflexivity|discriminate].
  - reflexivity.
  - discriminate.
Defined.

Lemma pages_prefix {A} (L n : nat) (l : list A) :
  List.concat (map (fun k => firstn L (skipn (k * L) l)) (seq 0 n))
  = firstn (n * L) l.
Proof.
  induction n as [|n IH]; [reflexivity|].
  rewrite seq_S, map_app, concat_app, IH. cbn [Nat.add map List.concat].
  rewrite app_nil_r.
  replace (S n * L)%nat with (n * L + L)%nat by lia.
  now rewrite firstn_add.
Qed.

(** X8.  Paging through [GET /api/gav] with a fixed [limit] between 1 and
    100 and [skip = 0, limit, 2 * limit, ...] returns every row of the table
    once, in the order of the table: the pages, put end to end, are the
    table. *)
Theorem gav_pages_cover_table (limit : Z) (n : nat) w :
  db_available w = true ->
  0 < limit <= PAGE_SIZE ->
  Z.of_nat (List.length (db_rows w)) <= Z.of_nat n * limit ->
  Z.of_nat n * limit < 2 ^ 63 ->
  List.concat (map (fun k => page_items (fst (gav (Z.of_nat k * limit) limit w)))
              (seq 0 n))
  = db_rows w.
Proof.
  intros Hup [Hl0 Hl] Hcover Hfit.
  change (2 ^ 63) with 9223372036854775808 in Hfit.
  rewrite (map_ext_in _
             (fun k => firstn (Z.to_nat limit)
                         (skipn (k * Z.to_nat limit) (db_rows w)))).
  - rewrite pages_prefix. apply firstn_all2. nia.
  - intros k Hk. apply in_seq in Hk.
    rewrite gav_page_items; try assumption; try nia.
    + f_equal. f_equal. nia.
    + apply fits_int64_iff. nia.
Qed.

Lemma gav_pages_cover_table_witness :
  db_available (started dataset) = true
  /\ 0 < 2 <= PAGE_SIZE
  /\ Z.of_nat (List.length dataset) <= Z.of_nat 2 * 2
  /\ fst (gav 0 2 (started dataset)) = inr [example_1_0; example_2_0]
  /\ fst (gav 2 2 (started dataset)) = inr [example_3_0]
  /\ List.concat (map (fun k => page_items
                             (fst (gav (Z.of_nat k * 2) 2 (started dataset))))
                 (seq 0 2))
     = dataset.
Proof.
  split; [reflexivity|]. split; [split; [reflexivity|discriminate]|].
  split; [discriminate|]. split; [reflexivity|]. split; [reflexivity|].
  apply (gav_pages_cover_table 2 2 (started dataset)).
  - reflexivity.
  - split; [reflexivity|discriminate].
  - discriminate.
  - reflexivity.
Defined.

(** X9.  A [skip] that does not fit in 64 bits, but is short enough for
    its digits to be read as an [int], passes validation, is refused by
    [sqlite3] when it is bound, and the request is answered 500 with the
    connection left open. *)
Theorem gav_skip_out_of_range_is_500 skip limit w :
  db_available w = true ->
  limit <= PAGE_SIZE ->
  fits_int64 limit = true ->
  fits_int64 skip = false ->
  int_parses skip = true ->
  gav skip limit w = (inl OverflowError, opened w)
  /\ status (fst (app (GET_api_gav (Some skip) (Some limit)) w)) = 500.
Proof.
  intros Hup Hl Hfl Hfs _. apply Z.leb_le in Hl.
  assert (Hrun : gav skip limit w = (inl OverflowError, opened w))
    by now rewrite gav_run, Hl, Hup, Hfl, Hfs.
  split; [exact Hrun|].
  cbn [app default]. unfold respond. now rewrite Hrun.
Qed.

Lemma gav_skip_out_of_range_is_500_witness :
  db_available (started dataset) = true
  /\ 10 <= PAGE_SIZE
  /\ fits_int64 10 = true
  /\ fits_int64 (2 ^ 63) = false
  /\ int_parses (2 ^ 63) = true
  /\ status (fst (app (GET_api_gav (Some (2 ^ 63)) (Some 10))
                      (started dataset))) = 500.
Proof.
  split; [reflexivity|]. split; [discriminate|]. split; [reflexivity|].
  split; [reflexivity|]. split; [reflexivity|].
  apply (gav_skip_out_of_range_is_500 (2 ^ 63) 10 (started dataset));
    try reflexivity; discriminate.
Defined.

(* ================================================================== *)
(** * Further properties: lookups that find nothing *)

(** X10.  [GET /api/file/{file_name}] answers 404, with the name in the
    detail, exactly when no row of the table carries that [file_name]. *)
Theorem file_404_iff_absent file_name w :
  db_available w = true ->
  (String.length file_name <= MAXLEN_FILE_NAME)%nat ->
  (fst (app (GET_api_file file_name) w)
   = Response 404 (Detail ("File " ++ file_name ++ " not found"))
   <-> forall r, In r (db_rows w) -> ModelGAV.file_name r <> file_name).
Proof.
  intros Hup Hlen. apply Nat.leb_le in Hlen.
  run_handler. rewrite Hlen, Hup.
  destruct (filter (where_file_name file_name) (db_rows w))
    as [|item rest] eqn:Hf; cbn [fst error_response].
  - split; [|reflexivity]. intros _ r Hr Hname.
    eapply filter_not_empty; [exact Hr| |exact Hf].
    now apply String.eqb_eq.
  - split; [discriminate|]. intros Hnone. exfalso.
    destruct (filter_head _ _ _ _ Hf) as [Hin Hw].
    apply String.eqb_eq in Hw. exact (Hnone item Hin Hw).
Qed.

Lemma file_404_iff_absent_witness :
  db_available (started dataset) = true
  /\ (String.length "missing.jar" <= MAXLEN_FILE_NAME)%nat
  /\ (forall r, In r dataset -> ModelGAV.file_name r <> "missing.jar")
  /\ fst (app (GET_api_file "missing.jar") (started dataset))
     = Response 404 (Detail "File missing.jar not found").
Proof.
  split; [reflexivity|]. split; [apply Nat.leb_le; reflexivity|].
  split; [intros r [<-|[<-|[<-|[]]]]; discriminate|].
  apply (file_404_iff_absent "missing.jar" (started dataset)).
  - reflexivity.
  - apply Nat.leb_le; reflexivity.
  - intros r [<-|[<-|[<-|[]]]]; discriminate.
Defined.

(** X11.  [GET /api/gav/{group_id}/{artifact_id}/{artifact_version}]
    answers 404, with the three coordinates joined by [/] in the detail,
    exactly when no row of the table carries all three. *)
Theorem gav_path_404_iff_absent g a v w :
  db_available w = true ->
  (String.length g <= MAXLEN_GROUP_ID)%nat ->
  (String.length a <= MAXLEN_ARTIFACT_ID)%nat ->
  (String.length v <= MAXLEN_ARTIFACT_VERSION)%nat ->
  (fst (app (GET_api_gav_path g a v) w)
   = Response 404
       (Detail ("GAV " ++ (g ++ "/" ++ a ++ "/" ++ v) ++ " not found"))
   <-> forall r, In r (db_rows w) ->
         ~ (ModelGAV.group_id r = g /\ ModelGAV.artifact_id r = a
            /\ ModelGAV.artifact_version r = v)).
Proof.
  intros Hup Hg Ha Hv. apply Nat.leb_le in Hg, Ha, Hv.
  run_handler. rewrite Hg, Ha, Hv, Hup, sqlite_limit_PAGE_SIZE_head.
  destruct (filter (where_gav g a v) (db_rows w)) as [|item rest] eqn:Hf;
    cbn [fst error_response].
  - split; [|reflexivity]. intros _ r Hr Hgav.
    eapply filter_not_empty; [exact Hr| |exact Hf].
    now apply where_gav_true.
  - split; [discriminate|]. intros Hnone. exfalso.
    destruct (filter_head _ _ _ _ Hf) as [Hin Hw].
    apply where_gav_true in Hw. exact (Hnone item Hin Hw).
Qed.

Lemma gav_path_404_iff_absent_witness :
  db_available (started dataset) = true
  /\ (String.length "com.example" <= MAXLEN_GROUP_ID)%nat
  /\ (String.length "example" <= MAXLEN_ARTIFACT_ID)%nat
  /\ (String.length "0.9" <= MAXLEN_ARTIFACT_VERSION)%nat
  /\ fst (app (GET_api_gav_path "com.example" "example" "0.9")
              (started dataset))
     = Response 404 (Detail "GAV com.example/example/0.9 not found").
Proof.
  split; [reflexivity|]. split; [apply Nat.leb_le; reflexivity|].
  split; [apply Nat.leb_le; reflexivity|].
  split; [apply Nat.leb_le; reflexivity|].
  apply (gav_path_404_iff_absent "com.example" "example" "0.9"
           (started dataset)).
  - reflexivity.
  - apply Nat.leb_le; reflexivity.
  - apply Nat.leb_le; reflexivity.
  - apply Nat.leb_le; reflexivity.
  - intros r [<-|[<-|[<-|[]]]] (_ & _ & H); discriminate H.
Defined.

(* ================================================================== *)
(** * Further properties: the answers of the upgrade endpoints *)

Lemma newer_versions_rows g a n limit t :
  let reps := newer_versions g a n limit t in
  Forall (fun r => In r t
                   /\ ModelGAV.group_id r = g
                   /\ ModelGAV.artifact_id r = a
                   /\ n < ModelGAV.version_seq r) reps
  /\ NoDup (map ModelGAV.artifact_version reps)
  /\ StronglySorted seq_le reps.
Proof.
  cbv zeta. rewrite newer_versions_limit.
  split; [|split].
  - apply Forall_forall. intros r Hr.
    apply sqlite_limit_incl, upgrade_groups_in, group_by_in, filter_In in Hr.
    destruct Hr as [Ht Hw]. apply where_upgrade_true in Hw. tauto.
  - rewrite <- sqlite_limit_map.
    apply sqlite_limit_NoDup, upgrade_groups_NoDup.
  - apply sqlite_limit_sorted, order_by_version_seq_sorted.
Qed.

Lemma newer_versions_latest g a n limit t :
  Forall (fun r => forall x,
            In x t -> where_upgrade g a n x = true ->
            ModelGAV.artifact_version x = ModelGAV.artifact_version r ->
            text_le (ModelGAV.last_modified x) (ModelGAV.last_modified r))
         (newer_versions g a n limit t).
Proof.
  rewrite newer_versions_limit. apply Forall_forall. intros r Hr x Hx Hw Hv.
  eapply group_by_newest; [|apply filter_In; split; eassumption|exact Hv].
  now apply upgrade_groups_in, (sqlite_limit_incl limit).
Qed.

Lemma StronglySorted_app_cross {A} (R : A -> A -> Prop) l1 l2 a b :
  StronglySorted R (l1 ++ l2) -> In a l1 -> In b l2 -> R a b.
Proof.
  induction l1 as [|x l1 IH]; cbn [app]; intros Hs Ha Hb; [destruct Ha|].
  inversion Hs as [|? ? Hs' Hall]; subst.
  destruct Ha as [->|Ha]; [|now apply IH].
  rewrite Forall_forall in Hall. apply Hall, in_or_app. now right.
Qed.

(** Every version the [WHERE] clause keeps has its group in the result,
    unless [LIMIT] cut the result before it: then the result is full and
    none of its groups comes after the one left out. *)
Lemma newer_versions_complete g a n limit t x :
  0 <= limit ->
  In x t -> where_upgrade g a n x = true ->
  In (ModelGAV.artifact_version x)
     (map ModelGAV.artifact_version (newer_versions g a n limit t))
  \/ (Z.of_nat (List.length (newer_versions g a n limit t)) = limit
      /\ exists rep,
           In rep t /\ where_upgrade g a n rep = true
           /\ ModelGAV.artifact_version rep = ModelGAV.artifact_version x
           /\ Forall (fun r => seq_le r rep) (newer_versions g a n limit t)).
Proof.
  intros Hl Hx Hw.
  destruct (group_fold_covered (filter (where_upgrade g a n) t) [] x)
    as (rep & Hrep & Hv & _); [left; apply filter_In; now split|].
  fold (group_by_artifact_version (filter (where_upgrade g a n) t)) in Hrep.
  pose proof (group_by_in _ _ Hrep) as Hin. apply filter_In in Hin.
  apply (Permutation_in _ (Permutation_sym (upgrade_groups_perm g a n t)))
    in Hrep.
  rewrite newer_versions_limit. unfold sqlite_limit.
  destruct (Z.ltb_spec limit 0) as [|_]; [lia|].
  set (groups := upgrade_groups g a n t) in *.
  set (k := Z.to_nat limit).
  pose proof (order_by_version_seq_sorted
                (sql_distinct
                   (group_by_artifact_version
                      (filter (where_upgrade g a n) t)))) as Hsorted.
  fold (upgrade_groups g a n t) in Hsorted. fold groups in Hsorted.
  rewrite <- (firstn_skipn k groups) in Hrep, Hsorted.
  apply in_app_or in Hrep. destruct Hrep as [Hfirst|Hrest].
  - left. rewrite <- Hv. now apply in_map.
  - right. split.
    + rewrite length_firstn.
      assert (0 < List.length (skipn k groups))%nat
        by (destruct (skipn k groups); [destruct Hrest|cbn; lia]).
      rewrite length_skipn in *. unfold k in *. lia.
    + exists rep. repeat split; try tauto.
      apply Forall_forall. intros r Hr.
      exact (StronglySorted_app_cross _ _ _ _ _ Hsorted Hr Hrest).
Qed.

(** X12.  When the base record is found and has newer versions, both
    upgrade endpoints answer 200 with the same list, at most [limit] entries
    by ascending [version_seq].  Each entry is the [artifact_version] of a
    row of the table, other than the base record's, that has the [group_id]
    and [artifact_id] of the base record and a [version_seq] above its own,
    with the latest [last_modified] of the newer rows of that version; no
    version is listed twice.  Every newer version is listed, unless [limit]
    entries are listed already and none of them comes after it by
    [version_seq]. *)
Theorem upgrade_lists_newer_versions w limit base :
  db_available w = true ->
  0 <= limit <= PAGE_SIZE_BIG ->
  fits_int64 (ModelGAV.version_seq base) = true ->
  newer_versions (ModelGAV.group_id base) (ModelGAV.artifact_id base)
    (ModelGAV.version_seq base) limit (db_rows w) <> [] ->
  exists reps,
    reps <> []
    /\ Z.of_nat (List.length reps) <= limit
    /\ Forall (fun r => In r (db_rows w)
                        /\ r <> base
                        /\ ModelGAV.group_id r = ModelGAV.group_id base
                        /\ ModelGAV.artifact_id r = ModelGAV.artifact_id base
                        /\ ModelGAV.version_seq base < ModelGAV.version_seq r)
              reps
    /\ NoDup (map ModelGAV.artifact_version reps)
    /\ StronglySorted seq_le reps
    /\ Forall (fun r => forall x,
                 In x (db_rows w) ->
                 ModelGAV.group_id x = ModelGAV.group_id base ->
                 ModelGAV.artifact_id x = ModelGAV.artifact_id base ->
                 ModelGAV.version_seq base < ModelGAV.version_seq x ->
                 ModelGAV.artifact_version x = ModelGAV.artifact_version r ->
                 text_le (ModelGAV.last_modified x) (ModelGAV.last_modified r))
              reps
    /\ (forall x,
          In x (db_rows w) ->
          ModelGAV.group_id x = ModelGAV.group_id base ->
          ModelGAV.artifact_id x = ModelGAV.artifact_id base ->
          ModelGAV.version_seq base < ModelGAV.version_seq x ->
          In (ModelGAV.artifact_version x)
             (map ModelGAV.artifact_version reps)
          \/ (Z.of_nat (List.length reps) = limit
              /\ exists rep,
                   In rep (db_rows w)
                   /\ ModelGAV.group_id rep = ModelGAV.group_id base
                   /\ ModelGAV.artifact_id rep = ModelGAV.artifact_id base
                   /\ ModelGAV.version_seq base < ModelGAV.version_seq rep
                   /\ ModelGAV.artifact_version rep
                      = ModelGAV.artifact_version x
                   /\ Forall (fun r => seq_le r rep) reps))
    /\ (forall file_name rest,
          (String.length file_name <= MAXLEN_FILE_NAME)%nat ->
          run_statement SQL_GAV_SELECT_FILE_NAME [PyStr file_name] (db_rows w)
          = inr (select_gav base :: rest) ->
          fst (app (GET_api_fileupgrade file_name (Some limit)) w)
          = Response 200 (Upgrades (map upgrade_of reps)))
    /\ (forall g a v rest,
          (String.length g <= MAXLEN_GROUP_ID)%nat ->
          (String.length a <= MAXLEN_ARTIFACT_ID)%nat ->
          (String.length v <= MAXLEN_ARTIFACT_VERSION)%nat ->
          run_statement SQL_GAV_SELECT_GAV [PyStr g; PyStr a; PyStr v]
            (db_rows w)
          = inr (select_gav base :: rest) ->
          fst (app (GET_api_gavupgrade g a v (Some limit)) w)
          = Response 200 (Upgrades (map upgrade_of reps))).
Proof.
  intros Hup [Hl0 Hl] Hseq Hsome.
  assert (Hfl : fits_int64 limit = true)
    by (apply fits_int64_iff; unfold PAGE_SIZE_BIG in Hl; lia).
  apply Z.leb_le in Hl.
  pose proof (newer_versions_rows (ModelGAV.group_id base)
                (ModelGAV.artifact_id base) (ModelGAV.version_seq base)
                limit (db_rows w)) as (Hrows & Hnd & Hsorted).
  pose proof (newer_versions_latest (ModelGAV.group_id base)
                (ModelGAV.artifact_id base) (ModelGAV.version_seq base)
                limit (db_rows w)) as Hlatest.
  pose proof (fun x => newer_versions_complete (ModelGAV.group_id base)
                (ModelGAV.artifact_id base) (ModelGAV.version_seq base)
                limit (db_rows w) x Hl0) as Hcomplete.
  pose proof (sqlite_limit_length limit
                (upgrade_groups (ModelGAV.group_id base)
                   (ModelGAV.artifact_id base) (ModelGAV.version_seq base)
                   (db_rows w)) Hl0) as Hlen.
  rewrite <- newer_versions_limit in Hlen.
  set (reps := newer_versions _ _ _ limit (db_rows w)) in *.
  exists reps.
  split; [exact Hsome|]. split; [exact Hlen|].
  split; [|split; [exact Hnd|split; [exact Hsorted|split; [|split; [|split]]]]].
  - eapply Forall_impl; [|exact Hrows].
    intros r (Hin & Hg & Ha & Hn). repeat split; try assumption.
    intros ->. lia.
  - eapply Forall_impl; [|exact Hlatest].
    intros r Hr x Hx Hg Ha Hn Hv. apply Hr; try assumption.
    apply where_upgrade_true. repeat split; assumption.
  - intros x Hx Hg Ha Hn.
    destruct (Hcomplete x Hx) as [Hlisted|(Hfull & rep & Hrep & Hw & Hv & Hall)].
    + apply where_upgrade_true. repeat split; assumption.
    + now left.
    + right. split; [exact Hfull|]. exists rep.
      apply where_upgrade_true in Hw. destruct Hw as (Hg' & Ha' & Hn').
      repeat split; assumption.
  - intros file_name rest Hlenf Hbase. apply Nat.leb_le in Hlenf.
    apply select_file_name_found in Hbase. destruct Hbase as [more Hbase].
    run_handler. cbn [default].
    rewrite Hlenf, Hl, Hup, Hbase, Hseq, Hfl. fold reps.
    destruct reps; [congruence|reflexivity].
  - intros g a v rest Hg Ha Hv Hbase. apply Nat.leb_le in Hg, Ha, Hv.
    apply select_gav_rows_found in Hbase. destruct Hbase as [more Hbase].
    run_handler. cbn [default].
    rewrite Hg, Ha, Hv, Hl, Hup, Hbase, Hseq, Hfl. fold reps.
    destruct reps; [congruence|reflexivity].
Qed.

Lemma upgrade_lists_newer_versions_witness :
  db_available (started dataset) = true
  /\ 0 <= 10 <= PAGE_SIZE_BIG
  /\ fits_int64 (ModelGAV.version_seq example_1_0) = true
  /\ fst (app (GET_api_fileupgrade "example-1.0.jar" (Some 10))
              (started dataset))
     = Response 200 (Upgrades [ ModelUpgrade.Build "2.0" "2024-01-01";
                                ModelUpgrade.Build "3.0" "2025-01-01" ])
  /\ exists reps,
       reps <> []
       /\ fst (app (GET_api_fileupgrade "example-1.0.jar" (Some 10))
                   (started dataset))
          = Response 200 (Upgrades (map upgrade_of reps))
       /\ fst (app (GET_api_gavupgrade "com.example" "example" "1.0"
                      (Some 10)) (started dataset))
          = Response 200 (Upgrades (map upgrade_of reps)).
Proof.
  split; [reflexivity|]. split; [split; discriminate|].
  split; [reflexivity|]. split; [reflexivity|].
  destruct (upgrade_lists_newer_versions (started dataset) 10 example_1_0)
    as (reps & Hne & _ & _ & _ & _ & _ & _ & Hfile & Hgav).
  - reflexivity.
  - split; discriminate.
  - reflexivity.
  - discriminate.
  - exists reps. split; [exact Hne|]. split.
    + apply (Hfile "example-1.0.jar" []);
        [apply Nat.leb_le; reflexivity|reflexivity].
    + apply (Hgav "com.example" "example" "1.0" []);
        [apply Nat.leb_le; reflexivity|apply Nat.leb_le; reflexivity
        |apply Nat.leb_le; reflexivity|reflexivity].
Defined.

(** X13.  With [limit = 0] a base record that is found is reported to
    have no newer version, whatever the table holds: [LIMIT 0] returns no
    row and both upgrade endpoints answer 204. *)
Theorem upgrade_limit_0_is_204 w base :
  db_available w = true ->
  fits_int64 (ModelGAV.version_seq base) = true ->
  (forall file_name rest,
     (String.length file_name <= MAXLEN_FILE_NAME)%nat ->
     run_statement SQL_GAV_SELECT_FILE_NAME [PyStr file_name] (db_rows w)
     = inr (select_gav base :: rest) ->
     status (fst (app (GET_api_fileupgrade file_name (Some 0)) w)) = 204)
  /\ (forall g a v rest,
        (String.length g <= MAXLEN_GROUP_ID)%nat ->
        (String.length a <= MAXLEN_ARTIFACT_ID)%nat ->
        (String.length v <= MAXLEN_ARTIFACT_VERSION)%nat ->
        run_statement SQL_GAV_SELECT_GAV [PyStr g; PyStr a; PyStr v]
          (db_rows w)
        = inr (select_gav base :: rest) ->
        status (fst (app (GET_api_gavupgrade g a v (Some 0)) w)) = 204).
Proof.
  intros Hup Hseq. split.
  - intros file_name rest Hlenf Hbase. apply Nat.leb_le in Hlenf.
    apply select_file_name_found in Hbase. destruct Hbase as [more Hbase].
    run_handler. cbn [default].
    now rewrite Hlenf, Hup, Hbase, Hseq.
  - intros g a v rest Hg Ha Hv Hbase. apply Nat.leb_le in Hg, Ha, Hv.
    apply select_gav_rows_found in Hbase. destruct Hbase as [more Hbase].
    run_handler. cbn [default].
    now rewrite Hg, Ha, Hv, Hup, Hbase, Hseq.
Qed.

Lemma upgrade_limit_0_is_204_witness :
  db_available (started dataset) = true
  /\ fits_int64 (ModelGAV.version_seq example_1_0) = true
  /\ status (fst (app (GET_api_fileupgrade "example-1.0.jar" (Some 10))
                      (started dataset))) = 200
  /\ status (fst (app (GET_api_fileupgrade "example-1.0.jar" (Some 0))
                      (started dataset))) = 204
  /\ status (fst (app (GET_api_gavupgrade "com.example" "example" "1.0"
                         (Some 0)) (started dataset))) = 204.
Proof.
  split; [reflexivity|]. split; [reflexivity|]. split; [reflexivity|].
  destruct (upgrade_limit_0_is_204 (started dataset) example_1_0
              eq_refl eq_refl) as [Hfile Hgav].
  split.
  - apply (Hfile "example-1.0.jar" []);
      [apply Nat.leb_le; reflexivity|reflexivity].
  - apply (Hgav "com.example" "example" "1.0" []);
      [apply Nat.leb_le; reflexivity|apply Nat.leb_le; reflexivity
      |apply Nat.leb_le; reflexivity|reflexivity].
Defined.

(* ================================================================== *)
(** * Further properties: the connection a handler leaves open *)

Lemma handles_fresh_opened w : handles_fresh w -> handles_fresh (opened w).
Proof.
  unfold handles_fresh, opened. cbn [next_connection open_connections].
  intros H. constructor; [lia|].
  eapply Forall_impl; [|exact H]. intros c Hc. cbn beta in *. lia.
Qed.

Lemma handles_fresh_released w : handles_fresh w -> handles_fresh (released w).
Proof.
  intros H. pose proof (released_open_connections w H) as Hopen.
  unfold handles_fresh in *. rewrite Hopen.
  unfold released, opened. cbn [connection_close snd next_connection].
  eapply Forall_impl; [|exact H]. intros c Hc. cbn beta in *. lia.
Qed.

(** The three ways a handler leaves the world: untouched, with its
    connection open, with its connection closed. *)
Lemma app_world req w :
  db_available w = true ->
  (snd (app req w) = w
   /\ raised_after_connect (status (fst (app req w))) = false)
  \/ (snd (app req w) = opened w
      /\ raised_after_connect (status (fst (app req w))) = true)
  \/ (snd (app req w) = released w
      /\ raised_after_connect (status (fst (app req w))) = false).
Proof.
  intros Hup.
  destruct req; run_handler; rewrite ?Hup; cbv iota; split_outcome;
    cbn [fst snd status error_response];
    first [ left; split; reflexivity
          | right; left; split; reflexivity
          | right; right; split; reflexivity ].
Qed.

Lemma app_connections req w :
  db_available w = true ->
  handles_fresh w ->
  handles_fresh (snd (app req w))
  /\ List.length (open_connections (snd (app req w)))
     = (List.length (open_connections w)
        + if raised_after_connect (status (fst (app req w))) then 1 else 0)%nat.
Proof.
  intros Hup Hfresh.
  destruct (app_world req w Hup) as [[-> ->]|[[-> ->]|[-> ->]]].
  - split; [exact Hfresh|lia].
  - split; [now apply handles_fresh_opened|].
    unfold opened. cbn [open_connections List.length]. lia.
  - split; [now apply handles_fresh_released|].
    rewrite (released_open_connections w Hfresh). lia.
Qed.



Lemma success_exit_closes_connection_witness :
  handles_fresh (World true dataset 4%nat [1%nat; 3%nat])
  /\ status (fst (app (GET_api_file "example-1.0.jar")
                      (World true dataset 4%nat [1%nat; 3%nat]))) = 200
  /\ open_connections
       (snd (app (GET_api_file "example-1.0.jar")
                 (World true dataset 4%nat [1%nat; 3%nat])))
     = [1%nat; 3%nat].
Proof.
  assert (Hfresh : handles_fresh (World true dataset 4%nat [1%nat; 3%nat]))
    by (repeat constructor).
  split; [exact Hfresh|]. split; [reflexivity|].
  exact (success_exit_closes_connection (GET_api_file "example-1.0.jar")
           (World true dataset 4%nat [1%nat; 3%nat]) Hfresh eq_refl).
Defined.


Lemma gav_limit_bounds_page_witness :
  0 <= 2
  /\ fst (gav 0 2 (started dataset)) = inr [example_1_0; example_2_0]
  /\ Z.of_nat (List.length [example_1_0; example_2_0]) <= Z.min 2 PAGE_SIZE.
Proof.
  split; [discriminate|]. split; [reflexivity|].
  exact (gav_limit_bounds_page 0 2 (started dataset)
           [example_1_0; example_2_0]
           (fun H => match H in (_ = c) return
                       match c with Gt => False | _ => True end
                     with eq_refl => I end)
           eq_refl).
Defined.
